(** * A shallow embedding of [web_app.py]

    The Flask service exposes [POST /user], [GET /user/<int:user_id>] and
    [GET /users] on top of one PostgreSQL table.  Each handler is embedded as
    a function from the request, the behaviour of the database during the
    request and the database contents, to the response and the new database
    contents.  Python exceptions are values of an error monad, the blanket
    [except Exception] of every handler is the monad's [try_except].  The
    calls to the logger change neither the response nor the database and
    are left out. *)

From Stdlib Require Import ZArith NArith Ascii String Floats.SpecFloat.
From stdpp Require Import base option list gmap fin_maps sorting.

#[local] Set Warnings "-register-all".
#[local] Open Scope Z_scope.

(** ** Python strings *)

(** A Python [str] is a sequence of Unicode code points. *)
Abbreviation char := N.
Abbreviation str := (list N).

(** String literals of the source, written as Rocq strings. *)
Definition lit (s : string) : str :=
  (λ a, N_of_ascii a) <$> list_ascii_of_string s.

Module Str.

(** [str.isspace] on one code point: the code points whose Unicode
    category is [Zs] or whose bidirectional class is [WS], [B] or [S]. *)
Definition isspace (c : char) : bool :=
  ((9 <=? c) && (c <=? 13) || (28 <=? c) && (c <=? 32)
   || (c =? 133) || (c =? 160) || (c =? 5760)
   || (8192 <=? c) && (c <=? 8202)
   || (c =? 8232) || (c =? 8233) || (c =? 8239) || (c =? 8287)
   || (c =? 12288))%N.

Fixpoint lstrip (s : str) : str :=
  match s with
  | c :: s' => if isspace c then lstrip s' else s
  | [] => []
  end.

Definition rstrip (s : str) : str := reverse (lstrip (reverse s)).

(** [s.strip()] *)
Definition strip (s : str) : str := rstrip (lstrip s).

(** [bool(s)]: a string is true when it is not empty. *)
Definition truthy (s : str) : bool :=
  match s with [] => false | _ => true end.

Fixpoint startswith (p s : str) : bool :=
  match p, s with
  | [], _ => true
  | a :: p', b :: s' => (a =? b)%N && startswith p' s'
  | _ :: _, [] => false
  end.

(** [p in s] for two strings: [p] occurs in [s] as a substring. *)
Fixpoint contains (p s : str) : bool :=
  startswith p s || match s with [] => false | _ :: s' => contains p s' end.

Definition isdigit (c : char) : bool := ((48 <=? c) && (c <=? 57))%N.

(** The digits of [int(...)] after the sign: decimal digits, with single
    underscores allowed between two digits.  [acc] is the value read so
    far, [after_digit] tells whether the previous character was a digit. *)
Fixpoint int_digits (s : str) (acc : Z) (after_digit : bool) : option Z :=
  match s with
  | [] => if after_digit then Some acc else None
  | c :: s' =>
      if isdigit c then int_digits s' (10 * acc + Z.of_N (c - 48)) true
      else if ((c =? 95)%N && after_digit) then int_digits s' acc false
      else None
  end.

(** [int(s)] in base ten on ASCII input; [None] is [ValueError].
    Surrounding whitespace is dropped and one sign is accepted.  Python
    also reads the decimal digits of other scripts, which this function
    rejects, and refuses numbers of more than 4300 digits, which this
    function reads: the views take the conversion as a parameter, and this
    one serves on short ASCII sample requests. *)
Definition int (s : str) : option Z :=
  match strip s with
  | 43%N :: s' => int_digits s' 0 false
  | 45%N :: s' => Z.opp <$> int_digits s' 0 false
  | s' => int_digits s' 0 false
  end.

End Str.

(** ** JSON values as Python objects *)

(** What [json.loads] builds: [None], [bool], [int], [float], [str], [list]
    and [dict] with string keys. *)
Inductive json : Type :=
| JNull
| JBool (b : bool)
| JInt (z : Z)
| JFloat (f : spec_float)
| JStr (s : str)
| JList (l : list json)
| JDict (d : gmap str json).

(** ** Exceptions *)

Inductive exn : Type :=
| BadRequest                       (* werkzeug: the body is not JSON *)
| TypeError
| AttributeError
| KeyError
| DatabaseError (cause : str).     (* psycopg2.Error with its message *)

Inductive result (A : Type) : Type :=
| Return (a : A)
| Raise (e : exn).
Arguments Return {A} a.
Arguments Raise {A} e.

#[export] Instance result_ret : MRet result := λ A a, Return a.
#[export] Instance result_bind : MBind result := λ A B f r,
  match r with Return a => f a | Raise e => Raise e end.

Module Py.

(** [bool(v)], as used by [not data]. *)
Definition truthy (v : json) : bool :=
  match v with
  | JNull => false
  | JBool b => b
  | JInt z => negb (z =? 0)
  | JFloat f => match f with S754_zero _ => false | _ => true end
  | JStr s => Str.truthy s
  | JList l => match l with [] => false | _ => true end
  | JDict d => negb (bool_decide (d = ∅))
  end.

(** [v == k] for a string [k]: only an equal string is equal to it. *)
Definition eq_str (k : str) (v : json) : bool :=
  match v with JStr s => bool_decide (s = k) | _ => false end.

(** [k in v] for a string [k]: key membership in a dict, element
    membership in a list, substring test in a string, [TypeError] on the
    values that are not containers. *)
Definition contains (k : str) (v : json) : result bool :=
  match v with
  | JDict d => Return (bool_decide (is_Some (d !! k)))
  | JList l => Return (existsb (eq_str k) l)
  | JStr s => Return (Str.contains k s)
  | _ => Raise TypeError
  end.

(** [v[k]] for a string [k]: defined on dicts only; lists and strings
    want integer indices. *)
Definition getitem (v : json) (k : str) : result json :=
  match v with
  | JDict d => match d !! k with Some x => Return x | None => Raise KeyError end
  | _ => Raise TypeError
  end.

(** [v.strip()]: only [str] has the method. *)
Definition strip (v : json) : result str :=
  match v with
  | JStr s => Return (Str.strip s)
  | _ => Raise AttributeError
  end.

End Py.

(** ** Timestamps *)

(** A [datetime.datetime] as psycopg2 returns it for a timestamp column:
    the calendar fields and, for a column with time zone, the offset from
    UTC in seconds. *)
Record datetime : Type := {
  year : N; month : N; day : N;
  hour : N; minute : N; second : N; microsecond : N;
  utcoffset : option Z
}.

Module Datetime.

(** The decimal digits of [n], most significant first. *)
Fixpoint digits (fuel : nat) (n : N) (acc : str) : str :=
  match fuel with
  | O => acc
  | S fuel' =>
      let acc' := (48 + n mod 10)%N :: acc in
      if (n / 10 =? 0)%N then acc' else digits fuel' (n / 10)%N acc'
  end.

Definition str_of_N (n : N) : str := digits (S (N.to_nat (N.log2 n))) n [].

(** ["%0<w>d" % n] *)
Definition zfill (w : nat) (n : N) : str :=
  let s := str_of_N n in replicate (w - length s)%nat 48%N ++ s.

(** The [+HH:MM] suffix of an aware datetime, with [:SS] when the offset
    has seconds. *)
Definition format_offset (off : option Z) : str :=
  match off with
  | None => []
  | Some o =>
      let a := Z.to_N (Z.abs o) in
      (if o <? 0 then lit "-" else lit "+")
        ++ zfill 2 (a / 3600)%N ++ lit ":" ++ zfill 2 ((a mod 3600) / 60)%N
        ++ (if (a mod 60 =? 0)%N then [] else lit ":" ++ zfill 2 (a mod 60)%N)
  end.

(** [d.isoformat()] *)
Definition isoformat (d : datetime) : str :=
  zfill 4 (year d) ++ lit "-" ++ zfill 2 (month d) ++ lit "-" ++ zfill 2 (day d)
    ++ lit "T"
    ++ zfill 2 (hour d) ++ lit ":" ++ zfill 2 (minute d) ++ lit ":" ++ zfill 2 (second d)
    ++ (if (microsecond d =? 0)%N then [] else lit "." ++ zfill 6 (microsecond d))
    ++ format_offset (utcoffset d).

Definition is_leap (y : N) : bool :=
  ((y mod 4 =? 0) && (negb (y mod 100 =? 0) || (y mod 400 =? 0)))%N.

Definition days_in_month (y m : N) : N :=
  match m with
  | 2 => if is_leap y then 29 else 28
  | 4 | 6 | 9 | 11 => 30
  | _ => 31
  end%N.

(** The ranges the [datetime] constructor enforces. *)
Definition valid (d : datetime) : Prop :=
  (1 ≤ year d ≤ 9999 ∧ 1 ≤ month d ≤ 12
   ∧ 1 ≤ day d ≤ days_in_month (year d) (month d)
   ∧ hour d < 24 ∧ minute d < 60 ∧ second d < 60 ∧ microsecond d < 1000000)%N
  ∧ match utcoffset d with Some o => -86400 < o < 86400 | None => True end.

(** The offset from UTC, if any, is a whole number of minutes: ISO-8601
    has no seconds in a zone designator. *)
Definition whole_minutes (d : datetime) : Prop :=
  match utcoffset d with Some o => o mod 60 = 0 | None => True end.

(** *** A decoder of ISO-8601 date-times
    The extended format [YYYY-MM-DDThh:mm:ss], with an optional fraction of
    six digits and an optional zone designator [+hh:mm] or [-hh:mm]; the
    fields are checked against the calendar and the clock. *)

(** The value of a string of digits. *)
Definition number (s : str) : N :=
  fold_left (λ a c, 10 * a + (c - 48))%N s 0%N.

(** [k] digits at the head of [s]: their value, and the rest of [s]. *)
Definition eat_number (k : nat) (s : str) : option (N * str) :=
  let ds := take k s in
  if bool_decide (length ds = k) && forallb Str.isdigit ds
  then Some (number ds, drop k s)
  else None.

Definition eat (c : char) (s : str) : option str :=
  match s with
  | c' :: s' => if (c =? c')%N then Some s' else None
  | [] => None
  end.

(** The fraction of a second, in microseconds: a point and six digits, or
    nothing. *)
Definition eat_fraction (s : str) : option (N * str) :=
  match eat 46%N s with
  | Some s' => eat_number 6 s'
  | None => Some (0%N, s)
  end.

(** The zone designator, in seconds east of UTC: nothing, or a sign, hours
    below 24 and minutes below 60; [-00:00] is not a designator. *)
Definition parse_offset (s : str) : option (option Z) :=
  match s with
  | [] => Some None
  | c :: s' =>
      '(hh, s1) ← eat_number 2 s'; s2 ← eat 58%N s1; '(mm, s3) ← eat_number 2 s2;
      if bool_decide (s3 = [])
         && ((c =? 43) || (c =? 45))%N
         && ((hh <? 24) && (mm <? 60))%N
         && negb ((c =? 45) && (hh =? 0) && (mm =? 0))%N
      then Some (Some ((if (c =? 45)%N then -1 else 1) * Z.of_N (3600 * hh + 60 * mm)))
      else None
  end.

Definition parse_iso8601 (s : str) : option datetime :=
  '(y, s) ← eat_number 4 s; s ← eat 45%N s;
  '(m, s) ← eat_number 2 s; s ← eat 45%N s;
  '(d, s) ← eat_number 2 s; s ← eat 84%N s;
  '(hh, s) ← eat_number 2 s; s ← eat 58%N s;
  '(mi, s) ← eat_number 2 s; s ← eat 58%N s;
  '(ss, s) ← eat_number 2 s;
  '(us, s) ← eat_fraction s;
  off ← parse_offset s;
  if ((1 <=? m) && (m <=? 12) && (1 <=? d) && (d <=? days_in_month y m)
      && (hh <? 24) && (mi <? 60) && (ss <? 60))%N
  then Some {| year := y; month := m; day := d; hour := hh; minute := mi;
               second := ss; microsecond := us; utcoffset := off |}
  else None.

Definition is_iso8601 (s : str) : bool := bool_decide (is_Some (parse_iso8601 s)).

End Datetime.

(** ** The database *)

(** One row of the table [users]. *)
Record user_row : Type := {
  row_id : Z;
  row_first_name : str;
  row_last_name : str;
  row_created_at : datetime
}.

(** Modelled from the spec: the schema of [users] is not part of the
    source.  The table has an auto-generated primary key [id], drawn from
    the sequence [users_id_seq], and a [created_at] that the server assigns
    at insertion.  [users] lists the committed rows in insertion order. *)
Record database : Type := {
  users : list user_row;
  users_id_seq : Z
}.

(** What the database server does during one request: whether connecting,
    executing the statement and committing fail (and with which message),
    and the server's clock. *)
Record db_env : Type := {
  connect_failure : option str;
  execute_failure : option str;
  commit_failure : option str;
  current_timestamp : datetime
}.

(** Every id in the table was drawn from the sequence, whose value is the
    last id it handed out. *)
Definition db_wf (db : database) : Prop :=
  Forall (λ u, row_id u ≤ users_id_seq db) (users db).

(** ** Handlers: exceptions over the database state *)

(** A computation that reads and changes the database and returns or
    raises.  The state survives an exception. *)
Definition handler (A : Type) : Type := database → result A * database.

#[export] Instance handler_ret : MRet handler := λ A a db, (Return a, db).
#[export] Instance handler_bind : MBind handler := λ A B f m db,
  match m db with
  | (Return a, db') => f a db'
  | (Raise e, db') => (Raise e, db')
  end.

(** A step that cannot touch the database. *)
Definition pure {A} (r : result A) : handler A := λ db, (r, db).

(** [try: body / except Exception as e: on_error] *)
Definition try_except {A} (body : handler A) (on_error : exn → A) : database → A * database :=
  λ db, match body db with
        | (Return a, db') => (a, db')
        | (Raise e, db') => (on_error e, db')
        end.

(** *** psycopg2 *)

(** An open connection, with the rows its transaction has written and not
    yet committed. *)
Record connection : Type := { pending : list user_row }.

(** [get_db_connection()]: [psycopg2.connect] on the configured server; an
    error is logged and raised again. *)
Definition get_db_connection (env : db_env) : handler connection :=
  pure match connect_failure env with
       | Some cause => Raise (DatabaseError cause)
       | None => Return {| pending := [] |}
       end.

(** [INSERT INTO users (first_name, last_name) VALUES (%s, %s)
     RETURNING id, first_name, last_name, created_at], then [fetchone()].
    A statement that the server executes draws the next id from the
    sequence, whether or not the primary key then accepts the row and the
    transaction commits; a statement that fails before that, which is what
    [execute_failure] stands for, draws nothing.  The primary key rejects
    an id that is taken. *)
Definition execute_insert (env : db_env) (conn : connection) (first_name last_name : str)
  : handler (connection * user_row) :=
  λ db,
    match execute_failure env with
    | Some cause => (Raise (DatabaseError cause), db)
    | None =>
        let i := users_id_seq db + 1 in
        let db' := {| users := users db; users_id_seq := i |} in
        if existsb (λ u, row_id u =? i) (users db ++ pending conn)
        then (Raise (DatabaseError (lit "duplicate key value violates unique constraint")), db')
        else
          let user := {| row_id := i; row_first_name := first_name;
                         row_last_name := last_name;
                         row_created_at := current_timestamp env |} in
          (Return ({| pending := pending conn ++ [user] |}, user), db')
    end.

(** [conn.commit()]: the rows of the transaction become part of the table,
    or none of them does. *)
Definition commit (env : db_env) (conn : connection) : handler () :=
  λ db,
    match commit_failure env with
    | Some cause => (Raise (DatabaseError cause), db)
    | None => (Return (), {| users := users db ++ pending conn;
                             users_id_seq := users_id_seq db |})
    end.

(** [SELECT id, first_name, last_name, created_at FROM users WHERE id = %s],
    then [fetchone()]. *)
Definition execute_select_by_id (env : db_env) (user_id : Z) : handler (option user_row) :=
  λ db,
    match execute_failure env with
    | Some cause => (Raise (DatabaseError cause), db)
    | None => (Return (List.find (λ u, row_id u =? user_id) (users db)), db)
    end.

Definition id_le (u v : user_row) : Prop := row_id u ≤ row_id v.

#[export] Instance id_le_dec u v : Decision (id_le u v) := Z_le_dec _ _.

(** [SELECT id, first_name, last_name, created_at FROM users ORDER BY id
     LIMIT %s OFFSET %s], then [fetchall()].  PostgreSQL evaluates both
    arguments as [bigint] and rejects negative ones. *)
Definition execute_select_page (env : db_env) (limit offset : Z) : handler (list user_row) :=
  λ db,
    match execute_failure env with
    | Some cause => (Raise (DatabaseError cause), db)
    | None =>
        if negb ((limit <? 2 ^ 63) && (offset <? 2 ^ 63))
        then (Raise (DatabaseError (lit "bigint out of range")), db)
        else if limit <? 0
        then (Raise (DatabaseError (lit "LIMIT must not be negative")), db)
        else if offset <? 0
        then (Raise (DatabaseError (lit "OFFSET must not be negative")), db)
        else (Return (take (Z.to_nat limit)
                        (drop (Z.to_nat offset) (merge_sort id_le (users db)))), db)
    end.

(** *** Flask *)

(** What [request.get_json()] can do with the body of the request: raise
    [BadRequest] when the body does not decode, or return the decoded
    value. *)
Inductive request_body : Type :=
| Undecodable
| Decoded (data : json).

Definition get_json (request : request_body) : result json :=
  match request with
  | Undecodable => Raise BadRequest
  | Decoded data => Return data
  end.

(** [request.args]: the query parameters in the order of the URL. *)
Abbreviation query_args := (list (str * str)).

Definition args_lookup (args : query_args) (key : str) : option str :=
  snd <$> List.find (λ p, bool_decide (p.1 = key)) args.

(** [request.args.get(key, default=default, type=type)]: the first value of
    [key], converted by [type]; the default when the key is absent and also
    when the conversion raises [ValueError]. *)
Definition args_get {A} (args : query_args) (key : str) (default : A)
    (type : str → option A) : A :=
  match args_lookup args key with
  | None => default
  | Some rv => match type rv with Some v => v | None => default end
  end.

(** A view's return value [jsonify(...), status]. *)
Record response : Type := { body : json; status : Z }.

Definition jsonify (d : gmap str json) : json := JDict d.

Definition error_response (message : string) (code : Z) : response :=
  {| body := jsonify {[ lit "error" := JStr (lit message) ]}; status := code |}.

(** The dict both [create_user] and [get_user] build from a row, and
    [get_all_users] from each row. *)
Definition user_dict (user : user_row) : gmap str json :=
  {[ lit "id" := JInt (row_id user);
     lit "first_name" := JStr (row_first_name user);
     lit "last_name" := JStr (row_last_name user);
     lit "created_at" := JStr (Datetime.isoformat (row_created_at user)) ]}.

(** ** The views *)

(** [not data or 'first_name' not in data or 'last_name' not in data] *)
Definition names_missing (data : json) : result bool :=
  if negb (Py.truthy data) then Return true
  else
    has_first ← Py.contains (lit "first_name") data;
    if negb has_first then Return true
    else
      has_last ← Py.contains (lit "last_name") data;
      Return (negb has_last).

(** The part of [create_user] that follows the first test, given the two
    values [data['first_name']] and [data['last_name']]: trimming, the
    emptiness test and the insertion. *)
Definition create_user_names (env : db_env) (v1 v2 : json) : handler response :=
  first_name ← pure (Py.strip v1);
  last_name ← pure (Py.strip v2);
  if negb (Str.truthy first_name) || negb (Str.truthy last_name)
  then mret (error_response "first_name and last_name cannot be empty" 400)
  else
    conn ← get_db_connection env;
    '(conn, user) ← execute_insert env conn first_name last_name;
    _ ← commit env conn;
    mret {| body := jsonify (user_dict user); status := 201 |}.

(** [POST /user] *)
Definition create_user (request : request_body) (env : db_env)
  : database → response * database :=
  try_except
    (data ← pure (get_json request);
     invalid ← pure (names_missing data);
     if invalid : bool
     then mret (error_response "first_name and last_name are required" 400)
     else
       first_name ← pure (Py.getitem data (lit "first_name") ≫= Py.strip);
       last_name ← pure (Py.getitem data (lit "last_name") ≫= Py.strip);
       if negb (Str.truthy first_name) || negb (Str.truthy last_name)
       then mret (error_response "first_name and last_name cannot be empty" 400)
       else
         conn ← get_db_connection env;
         '(conn, user) ← execute_insert env conn first_name last_name;
         _ ← commit env conn;
         mret {| body := jsonify (user_dict user); status := 201 |})
    (λ e, error_response "Internal server error" 500).

(** [GET /user/<int:user_id>] *)
Definition get_user (user_id : Z) (env : db_env) : database → response * database :=
  try_except
    (conn ← get_db_connection env;
     user ← execute_select_by_id env user_id;
     match user with
     | None => mret (error_response "User not found" 404)
     | Some user => mret {| body := jsonify (user_dict user); status := 200 |}
     end)
    (λ e, error_response "Internal server error" 500).

(** What the client of [GET /user/<id>] gets: the value the view returned,
    or Flask's own 404 page when no rule matches the path. *)
Inductive reply : Type :=
| Answer (r : response)
| NoRoute.

(** [@app.route('/user/<int:user_id>', methods=['GET'])] on the path whose
    last segment is the integer [id] written in decimal.  The [int]
    converter matches digits only: a negative id, written with its sign,
    matches no rule and the view is not called. *)
Definition route_user (id : Z) (env : db_env) : database → reply * database :=
  λ db,
    if 0 <=? id
    then let '(r, db') := get_user id env db in (Answer r, db')
    else (NoRoute, db).

(** [GET /users].  [int] is Python's conversion of a string to an integer,
    [None] standing for [ValueError]; the view is embedded for any such
    conversion, [Str.int] being the one used on sample requests. *)
Definition get_all_users (int : str → option Z) (args : query_args) (env : db_env)
  : database → response * database :=
  try_except
    (let limit := args_get args (lit "limit") 10 int in
     let offset := args_get args (lit "offset") 0 int in
     conn ← get_db_connection env;
     users ← execute_select_page env limit offset;
     mret {| body := jsonify {[ lit "users" := JList ((λ u, JDict (user_dict u)) <$> users);
                                lit "limit" := JInt limit;
                                lit "offset" := JInt offset ]};
             status := 200 |})
    (λ e, error_response "Internal server error" 500).

(** [str(e)]: the message of a database error.  The other exceptions of
    this model keep no message; none of them can be raised in
    [health_check], the one view that prints the exception. *)
Definition exn_str (e : exn) : str :=
  match e with
  | DatabaseError cause => cause
  | _ => []
  end.

(** [GET /health]: open a connection and close it.  [now] is what
    [datetime.utcnow()] returns during the request. *)
Definition health_check (now : datetime) (env : db_env)
  : database → response * database :=
  try_except
    (conn ← get_db_connection env;
     mret {| body := jsonify {[ lit "status" := JStr (lit "healthy");
                                lit "timestamp" := JStr (Datetime.isoformat now) ]};
             status := 200 |})
    (λ e, {| body := jsonify {[ lit "status" := JStr (lit "unhealthy");
                                lit "error" := JStr (exn_str e) ]};
             status := 503 |}).

(** ** Auxiliary notions for the statements *)

(** The row an insertion of the two names writes. *)
Definition inserted (env : db_env) (db : database) (first_name last_name : str) : user_row :=
  {| row_id := users_id_seq db + 1; row_first_name := first_name;
     row_last_name := last_name; row_created_at := current_timestamp env |}.

(** The four ways [create_user] can end: the two rejections, the internal
    error, which leaves the rows alone, and the creation. *)
Definition create_user_ends (env : db_env) (db : database)
    (r : response) (db' : database) : Prop :=
  (r = error_response "first_name and last_name are required" 400 ∧ db' = db)
  ∨ (r = error_response "first_name and last_name cannot be empty" 400 ∧ db' = db)
  ∨ (r = error_response "Internal server error" 500
     ∧ users db' = users db ∧ users_id_seq db ≤ users_id_seq db')
  ∨ (∃ first_name last_name,
        let user := inserted env db first_name last_name in
        r = {| body := jsonify (user_dict user); status := 201 |}
        ∧ db' = {| users := users db ++ [user]; users_id_seq := row_id user |}
        ∧ existsb (λ u, row_id u =? row_id user) (users db) = false
        ∧ connect_failure env = None ∧ execute_failure env = None
        ∧ commit_failure env = None).

(** The part of [create_user] that runs before any database call: what it
    makes of the body is a response, or the two trimmed names. *)
Definition validate (request : request_body) : result (response + str * str) :=
  data ← get_json request;
  invalid ← names_missing data;
  if invalid : bool
  then Return (inl (error_response "first_name and last_name are required" 400))
  else
    first_name ← Py.getitem data (lit "first_name") ≫= Py.strip;
    last_name ← Py.getitem data (lit "last_name") ≫= Py.strip;
    if negb (Str.truthy first_name) || negb (Str.truthy last_name)
    then Return (inl (error_response "first_name and last_name cannot be empty" 400))
    else Return (inr (first_name, last_name)).

(** The part of [create_user] that talks to the database. *)
Definition insert_user (env : db_env) (first_name last_name : str) : handler response :=
  conn ← get_db_connection env;
  '(conn, user) ← execute_insert env conn first_name last_name;
  _ ← commit env conn;
  mret {| body := jsonify (user_dict user); status := 201 |}.

(** A name as the data model wants it: not empty, with no whitespace at
    either end. *)
Definition trimmed (s : str) : Prop :=
  s ≠ []
  ∧ (∀ c, head s = Some c → Str.isspace c = false)
  ∧ (∀ c, last s = Some c → Str.isspace c = false).

Definition names_trimmed (db : database) : Prop :=
  Forall (λ u, trimmed (row_first_name u) ∧ trimmed (row_last_name u)) (users db).

Definition id_lt (u v : user_row) : Prop := row_id u < row_id v.

(** The rows are stored by increasing id, all of them from the sequence. *)
Definition db_ordered (db : database) : Prop :=
  StronglySorted id_lt (users db) ∧ db_wf db.

(** The ids of the table. *)
Definition ids (db : database) : list Z := row_id <$> users db.

(** The [users] of the envelope of a listing. *)
Definition users_of (r : response) : option (list json) :=
  match body r with
  | JDict d => match d !! lit "users" with Some (JList l) => Some l | _ => None end
  | _ => None
  end.

(** The rows of a listing, as they appear in the envelope. *)
Definition listed (rows : list user_row) : list json :=
  (λ u, JDict (user_dict u)) <$> rows.

(** [isinstance(v, str)] *)
Definition is_str (v : json) : bool :=
  match v with JStr _ => true | _ => false end.

(** The query string with every occurrence of one parameter taken out. *)
Definition without (key : str) (args : query_args) : query_args :=
  List.filter (λ p, negb (bool_decide (p.1 = key))) args.

(** ** Sample data *)

Definition noon : datetime :=
  {| year := 2024; month := 3; day := 9; hour := 12; minute := 0; second := 0;
     microsecond := 0; utcoffset := None |}.

(** A database server that works. *)
Definition server_up : db_env :=
  {| connect_failure := None; execute_failure := None; commit_failure := None;
     current_timestamp := noon |}.

(** A database server that refuses connections. *)
Definition server_down : db_env :=
  {| connect_failure := Some (lit "connection refused"); execute_failure := None;
     commit_failure := None; current_timestamp := noon |}.

Definition no_users : database := {| users := []; users_id_seq := 0 |}.

Definition ada : gmap str json :=
  {[ lit "first_name" := JStr (lit " Ada "); lit "last_name" := JStr (lit " Lovelace ") ]}.

Definition ada_row : user_row :=
  {| row_id := 1; row_first_name := lit "Ada"; row_last_name := lit "Lovelace";
     row_created_at := noon |}.

Definition one_user : database := {| users := [ada_row]; users_id_seq := 1 |}.

(** ** Timestamps are rendered in ISO-8601 *)

Section datetime_facts.
Import Datetime.

Lemma digit_isdigit (n : N) : Str.isdigit (48 + n mod 10)%N = true.
Proof.
  unfold Str.isdigit. pose proof (N.mod_upper_bound n 10 ltac:(lia)) as Hr.
  revert Hr. generalize (n mod 10)%N. intros r Hr.
  apply andb_true_intro; split; apply N.leb_le; lia.
Qed.

Lemma digits_isdigit fuel : ∀ n acc,
  Forall (λ c, Str.isdigit c = true) acc →
  Forall (λ c, Str.isdigit c = true) (digits fuel n acc).
Proof.
  induction fuel as [|fuel IH]; intros n acc Hacc; simpl; [done|].
  assert (Forall (λ c, Str.isdigit c = true) ((48 + n mod 10)%N :: acc))
    by (constructor; [apply digit_isdigit | done]).
  destruct (n / 10 =? 0)%N; auto.
Qed.

Lemma digits_length fuel : ∀ n acc (w : nat),
  (n < 10 ^ N.of_nat (S w))%N →
  (length (digits fuel n acc) ≤ S w + length acc)%nat.
Proof.
  induction fuel as [|fuel IH]; intros n acc w Hn; simpl; [lia|].
  destruct (n / 10 =? 0)%N eqn:Hq; simpl; [lia|].
  apply N.eqb_neq in Hq.
  destruct w as [|w].
  - exfalso. apply Hq. apply N.div_small. simpl in Hn. lia.
  - etrans; [apply (IH _ _ w)|simpl; lia].
    apply N.Div0.div_lt_upper_bound.
    rewrite <- N.pow_succ_r'. by rewrite <- Nat2N.inj_succ.
Qed.

(** A number below [10 ^ w] is printed on exactly [w] digits. *)
Lemma zfill_spec (w : nat) (n : N) :
  (n < 10 ^ N.of_nat (S w))%N →
  length (zfill (S w) n) = S w ∧ Forall (λ c, Str.isdigit c = true) (zfill (S w) n).
Proof.
  intros Hn. unfold zfill, str_of_N.
  pose proof (digits_length (S (N.to_nat (N.log2 n))) n [] w Hn) as Hlen.
  pose proof (digits_isdigit (S (N.to_nat (N.log2 n))) n [] (Forall_nil_2 _)) as Hs.
  set (s := digits (S (N.to_nat (N.log2 n))) n []) in *. clearbody s.
  change (length (@nil N)) with 0%nat in Hlen.
  split.
  - rewrite length_app, length_replicate. lia.
  - apply Forall_app_2; [|exact Hs].
    apply Forall_replicate. reflexivity.
Qed.

Lemma number_snoc (s : str) (c : char) :
  number (s ++ [c]) = (10 * number s + (c - 48))%N.
Proof. unfold number. by rewrite fold_left_app. Qed.

Lemma number_zeros (k : nat) (s : str) :
  number (replicate k 48%N ++ s) = number s.
Proof.
  unfold number. rewrite fold_left_app.
  assert (fold_left (λ a c, 10 * a + (c - 48))%N (replicate k 48%N) 0%N = 0%N) as ->;
    [|done].
  induction k as [|k IH]; [done|]. simpl. exact IH.
Qed.

(** [digits] writes the decimal digits of [n] in front of [acc]. *)
Lemma digits_number fuel : ∀ n acc,
  (n < 2 ^ N.of_nat fuel)%N →
  ∃ ds, digits fuel n acc = ds ++ acc ∧ number ds = n.
Proof.
  induction fuel as [|fuel IH]; intros n acc Hn.
  - exists []. split; [done|]. simpl in Hn. unfold number. simpl. lia.
  - simpl. pose proof (N.div_mod' n 10) as Hdm.
    pose proof (N.mod_upper_bound n 10 ltac:(lia)) as Hr.
    revert Hdm Hr. generalize (n mod 10)%N. intros r Hdm Hr.
    destruct (n / 10 =? 0)%N eqn:Hq.
    + apply N.eqb_eq in Hq. exists [(48 + r)%N]. split; [done|].
      unfold number. simpl. lia.
    + apply N.eqb_neq in Hq.
      destruct (IH (n / 10)%N ((48 + r)%N :: acc)) as (ds & Hds & Hval).
      { rewrite Nat2N.inj_succ, N.pow_succ_r' in Hn. lia. }
      exists (ds ++ [(48 + r)%N]). split.
      * by rewrite Hds, <- app_assoc.
      * rewrite number_snoc, Hval. lia.
Qed.

Lemma number_zfill (w : nat) (n : N) : number (zfill w n) = n.
Proof.
  unfold zfill, str_of_N. cbv zeta. rewrite number_zeros.
  destruct (digits_number (S (N.to_nat (N.log2 n))) n []) as (ds & -> & Hval).
  - rewrite Nat2N.inj_succ, N2Nat.id.
    destruct (decide (n = 0%N)) as [->|Hn]; [done|].
    apply N.log2_spec. lia.
  - by rewrite app_nil_r.
Qed.

Lemma eat_number_zfill (w : nat) (n : N) (rest : str) :
  (n < 10 ^ N.of_nat (S w))%N →
  eat_number (S w) (zfill (S w) n ++ rest) = Some (n, rest).
Proof.
  intros Hn. destruct (zfill_spec w n Hn) as [Hlen Hdig].
  unfold eat_number. cbv zeta.
  rewrite take_app_length', drop_app_length' by done.
  rewrite bool_decide_eq_true_2 by done.
  rewrite (proj2 (forallb_forall _ _)), number_zfill; [done|].
  intros c Hc. rewrite Forall_forall in Hdig. by apply Hdig, list_elem_of_In.
Qed.

Lemma eat_cons (c : char) (rest : str) : eat c ([c] ++ rest) = Some rest.
Proof. simpl. by rewrite N.eqb_refl. Qed.

Lemma eat_head (c : char) (rest : str) : eat c (c :: rest) = Some rest.
Proof. apply eat_cons. Qed.

Ltac lits :=
  change (lit "-") with [45%N]; change (lit "+") with [43%N];
  change (lit "T") with [84%N]; change (lit ":") with [58%N];
  change (lit ".") with [46%N].

Ltac eat_all :=
  repeat (first [ rewrite eat_number_zfill by (simpl; lia)
                | rewrite eat_cons | rewrite eat_head ];
          cbn [mbind option_bind]).

Lemma eat_fraction_format (us : N) (rest : str) :
  (us < 1000000)%N → eat 46%N rest = None →
  eat_fraction ((if (us =? 0)%N then [] else [46%N] ++ zfill 6 us) ++ rest)
  = Some (us, rest).
Proof.
  intros Hus Hrest. unfold eat_fraction. destruct (us =? 0)%N eqn:Hz.
  - apply N.eqb_eq in Hz as ->. by rewrite app_nil_l, Hrest.
  - rewrite <- app_assoc, eat_cons. by rewrite eat_number_zfill by (simpl; lia).
Qed.

Lemma parse_offset_format (d : datetime) :
  valid d → whole_minutes d →
  parse_offset (format_offset (utcoffset d)) = Some (utcoffset d).
Proof.
  intros [_ Hrange] Hwhole. unfold whole_minutes in Hwhole.
  destruct (utcoffset d) as [o|]; [|done]. unfold format_offset.
  set (a := Z.to_N (Z.abs o)).
  assert (a < 86400)%N as Ha by (subst a; lia).
  assert (a mod 60 = 0)%N as Ha60.
  { subst a. apply N2Z.inj. rewrite N2Z.inj_mod, Z2N.id by lia. simpl.
    destruct (Z.abs_spec o) as [[_ ->]|[_ ->]]; [done|].
    apply Z.mod_divide in Hwhole as [k ->]; [|done].
    apply Z.mod_divide; [done|]. exists (- k). lia. }
  assert (Z.of_N a = Z.abs o) as Habs by (subst a; lia).
  rewrite Ha60. cbn [N.eqb]. rewrite app_nil_r.
  pose proof (N.div_mod' a 60) as Hdm60. rewrite Ha60 in Hdm60.
  pose proof (N.div_mod' a 3600) as Hdm.
  pose proof (N.mod_upper_bound a 3600 ltac:(lia)) as Hr.
  revert Hdm Hr. generalize (a / 3600)%N. intros hh.
  generalize (a mod 3600)%N. intros r Hdm Hr.
  pose proof (N.div_mod' r 60) as Hdm'.
  pose proof (N.mod_upper_bound r 60 ltac:(lia)) as Hr'.
  revert Hdm' Hr'. generalize (r / 60)%N. intros mm.
  generalize (r mod 60)%N. intros r2 Hdm' Hr'.
  revert Hdm60. generalize (a / 60)%N. intros q Hdm60.
  assert (hh < 24 ∧ mm < 60 ∧ r2 = 0)%N as (Hhh & Hmm & ->) by lia.
  assert (Z.abs o = Z.of_N (3600 * hh + 60 * mm)) as Hval by lia.
  clearbody a. clear Hrange Hwhole. rewrite <- (app_nil_r (zfill 2 mm)).
  destruct (o <? 0) eqn:Ho; lits; cbn [app parse_offset]; eat_all;
    rewrite bool_decide_eq_true_2 by done;
    rewrite (proj2 (N.ltb_lt _ _) Hhh), (proj2 (N.ltb_lt _ _) Hmm);
    cbn [N.eqb Pos.eqb orb andb negb].
  - apply Z.ltb_lt in Ho.
    destruct (hh =? 0)%N eqn:E1; destruct (mm =? 0)%N eqn:E2;
      try apply N.eqb_eq in E1; try apply N.eqb_eq in E2;
      cbn [andb negb]; [lia|..]; do 2 f_equal; lia.
  - apply Z.ltb_ge in Ho. do 2 f_equal. lia.
Qed.

Lemma format_offset_no_point off : eat 46%N (format_offset off) = None.
Proof. destruct off as [o|]; [|done]. simpl. by destruct (o <? 0). Qed.

(** Decoding what [isoformat] writes gives the timestamp back. *)
Lemma parse_isoformat (d : datetime) :
  valid d → whole_minutes d → parse_iso8601 (isoformat d) = Some d.
Proof.
  intros Hvalid Hwhole. pose proof (parse_offset_format d Hvalid Hwhole) as Hzone.
  destruct Hvalid as [(Hy & Hmo & Hd & Hh & Hmi & Hs & Hus) _].
  assert (days_in_month (year d) (month d) ≤ 31)%N as Hdim.
  { unfold days_in_month. repeat case_match; lia. }
  unfold parse_iso8601, isoformat. lits. eat_all.
  rewrite eat_fraction_format by (done || apply format_offset_no_point).
  cbn [mbind option_bind]. rewrite Hzone. cbn [mbind option_bind].
  assert (((1 <=? month d) && (month d <=? 12) && (1 <=? day d)
           && (day d <=? days_in_month (year d) (month d))
           && (hour d <? 24) && (minute d <? 60) && (second d <? 60))%N = true) as ->.
  { repeat (apply andb_true_intro; split);
      first [apply N.leb_le | apply N.ltb_lt]; lia. }
  by destruct d.
Qed.

Lemma isoformat_iso8601 (d : datetime) :
  valid d → whole_minutes d → is_iso8601 (isoformat d) = true.
Proof.
  intros Hvalid Hwhole. unfold is_iso8601. apply bool_decide_eq_true_2.
  rewrite parse_isoformat by done. eauto.
Qed.

Example iso8601_samples :
  is_iso8601 (lit "2024-02-29T23:59:59.000001+05:30") = true
  ∧ is_iso8601 (lit "2023-02-29T00:00:00") = false
  ∧ is_iso8601 (lit "9999-99-99T99:99:99+99:99") = false
  ∧ is_iso8601 (lit "2024-03-09T12:00:00+05:30:15") = false
  ∧ is_iso8601 (lit "2024-03-09T12:00:00-00:00") = false
  ∧ is_iso8601 (lit "2024-03-09 12:00:00") = false.
Proof. by vm_compute. Qed.

Example isoformat_noon : isoformat noon = lit "2024-03-09T12:00:00".
Proof. reflexivity. Qed.

Example isoformat_aware :
  isoformat {| year := 987; month := 12; day := 31; hour := 23; minute := 59;
               second := 7; microsecond := 1250; utcoffset := Some (-19800) |}
  = lit "0987-12-31T23:59:07.001250-05:30".
Proof. reflexivity. Qed.

End datetime_facts.

(** ** Trimming *)

Section strip_facts.
Import Str.

Lemma lstrip_spec (s : str) :
  ∃ ws, s = ws ++ lstrip s
        ∧ Forall (λ c, isspace c = true) ws
        ∧ ∀ c, head (lstrip s) = Some c → isspace c = false.
Proof.
  induction s as [|c s (ws & Hs & Hws & Hhd)]; simpl.
  - exists []. by repeat split.
  - destruct (isspace c) eqn:Hc.
    + exists (c :: ws). repeat split; [by rewrite Hs at 1|by constructor|done].
    + exists []. repeat split; [constructor|]. simpl. congruence.
Qed.

Lemma rstrip_spec (s : str) :
  ∃ ws, s = rstrip s ++ ws
        ∧ Forall (λ c, isspace c = true) ws
        ∧ ∀ c, last (rstrip s) = Some c → isspace c = false.
Proof.
  destruct (lstrip_spec (reverse s)) as (ws & Hs & Hws & Hhd).
  exists (reverse ws). unfold rstrip. repeat split.
  - rewrite <- reverse_app, <- Hs. by rewrite reverse_involutive.
  - by apply Forall_reverse.
  - intros c. rewrite last_reverse. apply Hhd.
Qed.

(** [strip] takes a run of whitespace off each end, and what is left
    neither starts nor ends with whitespace. *)
Lemma strip_spec (s : str) :
  ∃ l r, s = l ++ strip s ++ r
         ∧ Forall (λ c, isspace c = true) l
         ∧ Forall (λ c, isspace c = true) r
         ∧ (∀ c, head (strip s) = Some c → isspace c = false)
         ∧ (∀ c, last (strip s) = Some c → isspace c = false).
Proof.
  destruct (lstrip_spec s) as (l & Hl & Hwl & Hhd).
  destruct (rstrip_spec (lstrip s)) as (r & Hr & Hwr & Hlast).
  exists l, r. unfold strip. repeat split; try done.
  - by rewrite <- Hr.
  - intros c Hc. apply Hhd. rewrite Hr.
    by destruct (rstrip (lstrip s)); simplify_eq/=.
Qed.

Lemma lstrip_whitespace (s : str) :
  Forall (λ c, isspace c = true) s → lstrip s = [].
Proof. induction 1 as [|c s Hc _ IH]; simpl; [done|]. by rewrite Hc. Qed.

(** The strings that trim to nothing are the strings of whitespace. *)
Lemma strip_empty_iff (s : str) :
  strip s = [] ↔ Forall (λ c, isspace c = true) s.
Proof.
  split.
  - intros Hs. destruct (strip_spec s) as (l & r & Heq & Hl & Hr & _).
    rewrite Heq, Hs. by apply Forall_app_2.
  - intros Hs. unfold strip. by rewrite lstrip_whitespace.
Qed.

Example strip_ada : strip (lit "  Ada Lovelace   ") = lit "Ada Lovelace".
Proof. reflexivity. Qed.

Example int_samples :
  int (lit " 12 ") = Some 12 ∧ int (lit "-3") = Some (-3)
  ∧ int (lit "1_000") = Some 1000 ∧ int (lit "1__0") = None
  ∧ int (lit "") = None ∧ int (lit "1.5") = None ∧ int (lit "abc") = None.
Proof. by repeat split. Qed.

End strip_facts.

(** ** The database keeps its invariant *)

Section database_facts.

(** An id the sequence has not handed out yet is not in the table. *)
Lemma db_wf_fresh (db : database) (i : Z) :
  db_wf db → users_id_seq db < i →
  existsb (λ u, row_id u =? i) (users db) = false.
Proof.
  unfold db_wf. intros Hwf Hi. induction Hwf as [|u l Hu _ IH]; [done|].
  simpl. rewrite IH. rewrite (proj2 (Z.eqb_neq _ _)); [done|lia].
Qed.

Lemma db_wf_no_users : db_wf no_users.
Proof. constructor. Qed.

Lemma db_wf_one_user : db_wf one_user.
Proof. by apply Forall_singleton. Qed.

(** A row whose id is not in the table is the one [WHERE id = ...] finds
    once it has been appended. *)
Lemma find_appended (l : list user_row) (u : user_row) :
  existsb (λ v, row_id v =? row_id u) l = false →
  List.find (λ v, row_id v =? row_id u) (l ++ [u]) = Some u.
Proof.
  induction l as [|v l IH]; simpl.
  - by rewrite Z.eqb_refl.
  - destruct (row_id v =? row_id u); [done|]. exact IH.
Qed.

Lemma find_absent (l : list user_row) (i : Z) :
  Forall (λ u, row_id u ≠ i) l → List.find (λ u, row_id u =? i) l = None.
Proof.
  induction 1 as [|u l Hu _ IH]; [done|]. simpl.
  by rewrite (proj2 (Z.eqb_neq _ _)).
Qed.

#[export] Instance id_le_total : Total id_le.
Proof. intros u v. unfold id_le. lia. Qed.

#[export] Instance id_le_trans : Transitive id_le.
Proof. intros u v w. unfold id_le. lia. Qed.

End database_facts.

(** ** Query parameters *)

Section args_facts.

Lemma args_lookup_without_eq (key : str) (args : query_args) :
  args_lookup (without key args) key = None.
Proof.
  unfold args_lookup, without.
  induction args as [|[k v] args IH]; [done|]. simpl.
  destruct (bool_decide (k = key)) eqn:Hk; simpl; [done|].
  by rewrite Hk.
Qed.

Lemma args_lookup_without_ne (key key' : str) (args : query_args) :
  key ≠ key' → args_lookup (without key args) key' = args_lookup args key'.
Proof.
  intros Hne. unfold args_lookup, without.
  induction args as [|[k v] args IH]; [done|]. simpl.
  destruct (bool_decide (k = key)) eqn:Hk; simpl.
  - apply bool_decide_eq_true_1 in Hk. subst k.
    by rewrite bool_decide_eq_false_2.
  - destruct (bool_decide (k = key')); [done|]. exact IH.
Qed.

(** A value that [type] rejects and an absent parameter give the same
    result: the default. *)
Lemma args_get_rejected {A} (args : query_args) key (default : A) type raw :
  args_lookup args key = Some raw → type raw = None →
  args_get args key default type = default.
Proof. intros Hk Hraw. unfold args_get. by rewrite Hk, Hraw. Qed.

Lemma args_get_absent {A} (args : query_args) key (default : A) type :
  args_lookup args key = None → args_get args key default type = default.
Proof. intros Hk. unfold args_get. by rewrite Hk. Qed.

Lemma args_get_without_ne {A} (args : query_args) key key' (default : A) type :
  key ≠ key' →
  args_get (without key args) key' default type = args_get args key' default type.
Proof. intros Hne. unfold args_get. by rewrite args_lookup_without_ne. Qed.

End args_facts.

(** ** The first test of [create_user] *)

Section create_user_validation.

Context (env : db_env) (db : database).

Lemma dict_truthy (d : gmap str json) k v : d !! k = Some v → Py.truthy (JDict d) = true.
Proof.
  intros Hk. simpl. rewrite bool_decide_eq_false_2; [done|].
  intros ->. by rewrite lookup_empty in Hk.
Qed.

Lemma names_missing_dict (d : gmap str json) :
  names_missing (JDict d)
  = Return (negb (bool_decide (is_Some (d !! lit "first_name")))
            || negb (bool_decide (is_Some (d !! lit "last_name")))).
Proof.
  unfold names_missing.
  destruct (d !! lit "first_name") as [v1|] eqn:H1.
  - rewrite (dict_truthy _ _ _ H1). simpl. rewrite H1.
    rewrite bool_decide_eq_true_2 by eauto. done.
  - destruct (Py.truthy (JDict d)); simpl; [|done].
    rewrite H1. rewrite bool_decide_eq_false_2; [done|]. by intros [? ?].
Qed.

(** A dict with both keys passes the first test, and the rest of the view
    sees the two values only. *)
Lemma create_user_dict (d : gmap str json) v1 v2 :
  d !! lit "first_name" = Some v1 →
  d !! lit "last_name" = Some v2 →
  create_user (Decoded (JDict d)) env db
  = try_except (create_user_names env v1 v2)
      (λ e, error_response "Internal server error" 500) db.
Proof.
  intros H1 H2. unfold create_user, try_except, create_user_names.
  unfold mbind at 1, handler_bind at 1, pure at 1. simpl get_json. cbv beta iota.
  unfold mbind at 1, handler_bind at 1, pure at 1.
  rewrite names_missing_dict, H1, H2.
  rewrite !bool_decide_eq_true_2 by eauto. cbv beta iota. simpl negb. simpl orb.
  unfold Py.getitem. rewrite H1, H2. done.
Qed.

(** A dict that lacks one of the keys is answered 400, and the database
    is not contacted. *)
Lemma create_user_missing_key (d : gmap str json) :
  d !! lit "first_name" = None ∨ d !! lit "last_name" = None →
  create_user (Decoded (JDict d)) env db
  = (error_response "first_name and last_name are required" 400, db).
Proof.
  intros H. unfold create_user, try_except.
  unfold mbind at 1, handler_bind at 1, pure at 1. simpl get_json. cbv beta iota.
  unfold mbind at 1, handler_bind at 1, pure at 1.
  rewrite names_missing_dict.
  assert (negb (bool_decide (is_Some (d !! lit "first_name")))
          || negb (bool_decide (is_Some (d !! lit "last_name"))) = true) as ->.
  { destruct H as [-> | ->].
    - rewrite bool_decide_eq_false_2; [done|]. by intros [? ?].
    - rewrite (bool_decide_eq_false_2 (is_Some None)); [|by intros [? ?]].
      by destruct (bool_decide _). }
  done.
Qed.

(** So is a body that decodes to [null], [false], zero or an empty
    string, list or dict. *)
Lemma create_user_falsy (data : json) :
  Py.truthy data = false →
  create_user (Decoded data) env db
  = (error_response "first_name and last_name are required" 400, db).
Proof.
  intros H. unfold create_user, try_except.
  unfold mbind at 1, handler_bind at 1, pure at 1. simpl get_json. cbv beta iota.
  unfold mbind at 1, handler_bind at 1, pure at 1.
  unfold names_missing. by rewrite H.
Qed.

(** The insertion, when the names are good and the server works. *)
Lemma create_user_names_created (fn ln : str) :
  Str.strip fn ≠ [] → Str.strip ln ≠ [] →
  connect_failure env = None → execute_failure env = None →
  commit_failure env = None →
  existsb (λ u, row_id u =? users_id_seq db + 1) (users db) = false →
  let user := {| row_id := users_id_seq db + 1;
                 row_first_name := Str.strip fn; row_last_name := Str.strip ln;
                 row_created_at := current_timestamp env |} in
  create_user_names env (JStr fn) (JStr ln) db
  = (Return {| body := jsonify (user_dict user); status := 201 |},
     {| users := users db ++ [user]; users_id_seq := users_id_seq db + 1 |}).
Proof.
  intros Hfn Hln Hc He Hm Hfresh user.
  unfold create_user_names, mbind, handler_bind, pure, mret, handler_ret.
  simpl Py.strip.
  destruct (Str.strip fn) as [|c1 s1] eqn:E1; [done|].
  destruct (Str.strip ln) as [|c2 s2] eqn:E2; [done|].
  simpl. unfold get_db_connection, pure, execute_insert, commit.
  rewrite Hc, He. simpl. rewrite app_nil_r, Hfresh, Hm. done.
Qed.

End create_user_validation.

(** ** Every way [create_user] can end *)

Section create_user_outcomes.

Context (env : db_env) (db : database).

Ltac ends_internal :=
  right; right; left; split_and!; simpl; [reflexivity | reflexivity | lia].

Lemma create_user_names_ends (v1 v2 : json) :
  let out := try_except (create_user_names env v1 v2)
               (λ e, error_response "Internal server error" 500) db in
  create_user_ends env db out.1 out.2.
Proof.
  unfold create_user_ends, create_user_names, try_except.
  unfold mbind, handler_bind, pure, mret, handler_ret.
  destruct (Py.strip v1) as [first_name|e1]; [|ends_internal].
  destruct (Py.strip v2) as [last_name|e2]; [|ends_internal].
  destruct (negb (Str.truthy first_name) || negb (Str.truthy last_name));
    [by right; left|].
  unfold get_db_connection, pure, execute_insert, commit.
  destruct (connect_failure env) as [c|] eqn:Hc; [ends_internal|].
  destruct (execute_failure env) as [c|] eqn:He; [ends_internal|].
  cbn [pending]. rewrite app_nil_r.
  destruct (existsb _ (users db)) eqn:Hfresh; [ends_internal|].
  destruct (commit_failure env) as [c|] eqn:Hm; [ends_internal|].
  right; right; right. exists first_name, last_name. by simpl.
Qed.

Lemma create_user_ends_total (request : request_body) :
  create_user_ends env db (create_user request env db).1 (create_user request env db).2.
Proof.
  destruct request as [|data]; [ends_internal|].
  destruct (Py.truthy data) eqn:Ht;
    [|rewrite create_user_falsy by done; by left].
  destruct data as [|b|z|f|s|l|d].
  1-6: unfold create_user, try_except, mbind, handler_bind, pure, names_missing,
         get_json;
       rewrite Ht; simpl.
  1-4: ends_internal.
  - (* a string *)
    destruct (Str.contains _ s); simpl; [|by left].
    destruct (Str.contains _ s); simpl; [|by left].
    ends_internal.
  - (* a list *)
    destruct (existsb _ l); simpl; [|by left].
    destruct (existsb _ l); simpl; [|by left].
    ends_internal.
  - (* a dict *)
    destruct (d !! lit "first_name") as [v1|] eqn:H1;
      [|rewrite create_user_missing_key by auto; by left].
    destruct (d !! lit "last_name") as [v2|] eqn:H2;
      [|rewrite create_user_missing_key by auto; by left].
    rewrite (create_user_dict env db d v1 v2 H1 H2).
    apply create_user_names_ends.
Qed.

(** The rows the views leave behind carry ids of the sequence. *)
Lemma create_user_wf (request : request_body) :
  db_wf db → db_wf (create_user request env db).2.
Proof.
  intros Hwf. pose proof (create_user_ends_total request) as Hends.
  destruct (create_user request env db) as [r db']. simpl in *.
  unfold db_wf in *.
  destruct Hends as [[_ ->]|[[_ ->]|[(_ & -> & Hseq)|(f & l & _ & -> & _)]]];
    try done.
  - eapply Forall_impl; [done|]. simpl. lia.
  - simpl. apply Forall_app_2; [|apply Forall_singleton; simpl; lia].
    eapply Forall_impl; [done|]. simpl. lia.
Qed.

End create_user_outcomes.

(** ** [POST /user] *)

Section create_user_claims.

Implicit Types (d : gmap str json) (env : db_env) (db : database).

(** C1: a body with both names, each non-empty once trimmed, is answered
    201 with [id], the trimmed names and [created_at], which is the
    timestamp of the inserted row rendered in ISO-8601: decoding it gives
    that timestamp back.  The row that is inserted carries the trimmed
    names.  The database server is taken to accept the connection, the
    statement and the commit. *)
Theorem create_user_created d (fn ln : str) env db :
  d !! lit "first_name" = Some (JStr fn) →
  d !! lit "last_name" = Some (JStr ln) →
  Str.strip fn ≠ [] → Str.strip ln ≠ [] →
  connect_failure env = None → execute_failure env = None →
  commit_failure env = None →
  db_wf db →
  Datetime.valid (current_timestamp env) →
  Datetime.whole_minutes (current_timestamp env) →
  ∃ (id : Z) (created_at : str),
    create_user (Decoded (JDict d)) env db
    = ({| body := jsonify {[ lit "id" := JInt id;
                             lit "first_name" := JStr (Str.strip fn);
                             lit "last_name" := JStr (Str.strip ln);
                             lit "created_at" := JStr created_at ]};
          status := 201 |},
       {| users := users db ++ [ {| row_id := id;
                                    row_first_name := Str.strip fn;
                                    row_last_name := Str.strip ln;
                                    row_created_at := current_timestamp env |} ];
          users_id_seq := id |})
    ∧ created_at = Datetime.isoformat (current_timestamp env)
    ∧ Datetime.parse_iso8601 created_at = Some (current_timestamp env).
Proof.
  intros H1 H2 Hfn Hln Hc He Hm Hwf Hts Hmin.
  exists (users_id_seq db + 1), (Datetime.isoformat (current_timestamp env)).
  split_and!; [|done|by apply parse_isoformat].
  rewrite (create_user_dict env db d _ _ H1 H2). unfold try_except.
  rewrite create_user_names_created; try done.
  apply db_wf_fresh; [done|lia].
Qed.

Lemma create_user_created_witness :
  ∃ (id : Z) (created_at : str),
    create_user (Decoded (JDict ada)) server_up no_users
    = ({| body := jsonify {[ lit "id" := JInt id;
                             lit "first_name" := JStr (lit "Ada");
                             lit "last_name" := JStr (lit "Lovelace");
                             lit "created_at" := JStr created_at ]};
          status := 201 |},
       {| users := [ {| row_id := id;
                        row_first_name := lit "Ada";
                        row_last_name := lit "Lovelace";
                        row_created_at := noon |} ];
          users_id_seq := id |})
    ∧ created_at = lit "2024-03-09T12:00:00"
    ∧ Datetime.parse_iso8601 created_at = Some noon.
Proof.
  apply (create_user_created ada (lit " Ada ") (lit " Lovelace ") server_up no_users).
  - vm_compute. reflexivity.
  - vm_compute. reflexivity.
  - vm_compute. discriminate.
  - vm_compute. discriminate.
  - reflexivity.
  - reflexivity.
  - reflexivity.
  - constructor.
  - unfold Datetime.valid. simpl. lia.
  - exact I.
Defined.

(** The example of the specification: [" Ada "] and [" Lovelace "] on an
    empty table. *)
Example create_user_ada :
  create_user (Decoded (JDict ada)) server_up no_users
  = ({| body := jsonify (user_dict ada_row); status := 201 |}, one_user).
Proof. vm_compute. reflexivity. Qed.

(** C2: a body that does not decode as JSON makes [request.get_json()]
    raise; the blanket handler turns that into 500, not into the 400 of
    the validation. *)
Theorem create_user_undecodable env db :
  create_user Undecodable env db
  = (error_response "Internal server error" 500, db).
Proof. reflexivity. Qed.

(** A decoded value that is neither false nor a container fails in the
    membership test, with the same 500. *)
Lemma create_user_number (z : Z) env db :
  z ≠ 0 →
  create_user (Decoded (JInt z)) env db
  = (error_response "Internal server error" 500, db).
Proof.
  intros Hz. unfold create_user, try_except, mbind, handler_bind, pure,
    names_missing, get_json. simpl.
  by rewrite (proj2 (Z.eqb_neq _ _) Hz).
Qed.

(** C6: both names are strings and one of them is empty once trimmed: 400
    with the message for empty names, and the database is left alone. *)
Theorem create_user_empty_name d (fn ln : str) env db :
  d !! lit "first_name" = Some (JStr fn) →
  d !! lit "last_name" = Some (JStr ln) →
  Str.strip fn = [] ∨ Str.strip ln = [] →
  create_user (Decoded (JDict d)) env db
  = (error_response "first_name and last_name cannot be empty" 400, db).
Proof.
  intros H1 H2 Hempty.
  rewrite (create_user_dict env db d _ _ H1 H2).
  unfold try_except, create_user_names, mbind, handler_bind, pure. simpl Py.strip.
  cbv beta iota.
  destruct Hempty as [-> | ->]; simpl; [done|].
  by rewrite orb_true_r.
Qed.

Lemma create_user_empty_name_witness :
  create_user
    (Decoded (JDict {[ lit "first_name" := JStr (lit "Ada");
                       lit "last_name" := JStr (lit "   ") ]}))
    server_up no_users
  = (error_response "first_name and last_name cannot be empty" 400, no_users).
Proof.
  apply (create_user_empty_name _ (lit "Ada") (lit "   ")).
  - vm_compute. reflexivity.
  - vm_compute. reflexivity.
  - right. vm_compute. reflexivity.
Defined.

(** C9: both keys are there and one value is not a string: [.strip()]
    raises, the answer is 500 and not a 400, and nothing is inserted. *)
Theorem create_user_not_a_string d (v1 v2 : json) env db :
  d !! lit "first_name" = Some v1 →
  d !! lit "last_name" = Some v2 →
  is_str v1 = false ∨ is_str v2 = false →
  create_user (Decoded (JDict d)) env db
  = (error_response "Internal server error" 500, db).
Proof.
  intros H1 H2 Hns.
  rewrite (create_user_dict env db d _ _ H1 H2).
  unfold try_except, create_user_names, mbind, handler_bind, pure.
  destruct v1; try done; destruct v2; try done; by destruct Hns.
Qed.

Lemma create_user_not_a_string_witness :
  create_user
    (Decoded (JDict {[ lit "first_name" := JStr (lit "Ada");
                       lit "last_name" := JNull ]}))
    server_up no_users
  = (error_response "Internal server error" 500, no_users).
Proof.
  apply (create_user_not_a_string _ (JStr (lit "Ada")) JNull).
  - vm_compute. reflexivity.
  - vm_compute. reflexivity.
  - right. reflexivity.
Defined.

(** C10: the view reads the two names and nothing else of the body: two
    dicts with the same [first_name] and the same [last_name] get the same
    response and leave the same database, whatever other keys they
    hold. *)
Theorem create_user_ignores_other_keys d1 d2 env db :
  d1 !! lit "first_name" = d2 !! lit "first_name" →
  d1 !! lit "last_name" = d2 !! lit "last_name" →
  create_user (Decoded (JDict d1)) env db = create_user (Decoded (JDict d2)) env db.
Proof.
  intros H1 H2.
  destruct (d1 !! lit "first_name") as [v1|] eqn:E1;
    [|by rewrite !create_user_missing_key by auto].
  destruct (d1 !! lit "last_name") as [v2|] eqn:E2;
    [|by rewrite !create_user_missing_key by auto].
  by rewrite (create_user_dict env db d1 v1 v2), (create_user_dict env db d2 v1 v2).
Qed.

Lemma create_user_ignores_other_keys_witness :
  create_user (Decoded (JDict ada)) server_up no_users
  = create_user (Decoded (JDict (<[ lit "admin" := JBool true ]> ada))) server_up no_users.
Proof.
  apply create_user_ignores_other_keys.
  - vm_compute. reflexivity.
  - vm_compute. reflexivity.
Defined.

End create_user_claims.

Section create_user_effects.

Implicit Types (d : gmap str json) (env : db_env) (db : database).

(** C5: a 201 comes with exactly one new row; any other answer, be it a
    validation failure or a database failure, leaves the rows as they
    were.  When the names are good and the server fails to connect, to
    execute or to commit, the answer is 500 with the fixed message,
    whatever the cause of the failure. *)
Theorem create_user_atomic (request : request_body) env db :
  let r := (create_user request env db).1 in
  let db' := (create_user request env db).2 in
  (status r = 201 → ∃ user, users db' = users db ++ [user])
  ∧ (status r ≠ 201 → users db' = users db)
  ∧ (∀ d fn ln,
       request = Decoded (JDict d) →
       d !! lit "first_name" = Some (JStr fn) →
       d !! lit "last_name" = Some (JStr ln) →
       Str.strip fn ≠ [] → Str.strip ln ≠ [] →
       is_Some (connect_failure env) ∨ is_Some (execute_failure env)
       ∨ is_Some (commit_failure env) →
       r = error_response "Internal server error" 500).
Proof.
  intros r db'. subst r db'.
  pose proof (create_user_ends_total env db request) as Hends.
  destruct (create_user request env db) as [r db'] eqn:Hrun. simpl in *.
  split_and!.
  - intros H201.
    destruct Hends as [[-> _]|[[-> _]|[[-> _]|(f & l & -> & -> & _)]]];
      try done. by eexists.
  - intros Hne.
    destruct Hends as [[_ ->]|[[_ ->]|[[_ [? _]]|(f & l & -> & _)]]]; done.
  - intros d fn ln -> H1 H2 Hfn Hln Hfail.
    destruct Hends as [[-> _]|[[-> _]|[[-> _]|(f & l & -> & -> & _ & Hc & He & Hm)]]].
    + rewrite create_user_dict with (v1 := JStr fn) (v2 := JStr ln) in Hrun by done.
      unfold try_except, create_user_names, mbind, handler_bind, pure in Hrun.
      simpl in Hrun.
      destruct (Str.strip fn); [done|]. destruct (Str.strip ln); [done|].
      simpl in Hrun. unfold get_db_connection, pure, execute_insert, commit in Hrun.
      repeat case_match; simplify_eq.
    + rewrite create_user_dict with (v1 := JStr fn) (v2 := JStr ln) in Hrun by done.
      unfold try_except, create_user_names, mbind, handler_bind, pure in Hrun.
      simpl in Hrun.
      destruct (Str.strip fn); [done|]. destruct (Str.strip ln); [done|].
      simpl in Hrun. unfold get_db_connection, pure, execute_insert, commit in Hrun.
      repeat case_match; simplify_eq.
    + done.
    + rewrite Hc, He, Hm in Hfail. destruct Hfail as [[? ?]|[[? ?]|[? ?]]]; done.
Qed.

Lemma create_user_atomic_witness :
  (create_user (Decoded (JDict ada)) server_down no_users).1
  = error_response "Internal server error" 500
  ∧ users (create_user (Decoded (JDict ada)) server_down no_users).2 = users no_users.
Proof.
  destruct (create_user_atomic (Decoded (JDict ada)) server_down no_users)
    as (_ & Hrows & Hfail).
  split.
  - apply (Hfail ada (lit " Ada ") (lit " Lovelace ")).
    + reflexivity.
    + vm_compute. reflexivity.
    + vm_compute. reflexivity.
    + vm_compute. discriminate.
    + vm_compute. discriminate.
    + left. eexists. reflexivity.
  - apply Hrows. vm_compute. discriminate.
Defined.

End create_user_effects.

(** ** [GET /user/<int:user_id>] *)

Section get_user_claims.

Implicit Types (env : db_env) (db : database).

(** A row that is in the table is answered 200 with its four fields. *)
Lemma get_user_found (user : user_row) env db :
  connect_failure env = None → execute_failure env = None →
  List.find (λ u, row_id u =? row_id user) (users db) = Some user →
  get_user (row_id user) env db
  = ({| body := jsonify (user_dict user); status := 200 |}, db).
Proof.
  intros Hc He Hfind.
  unfold get_user, try_except, mbind, handler_bind, get_db_connection, pure,
    execute_select_by_id.
  by rewrite Hc, He, Hfind.
Qed.

(** C7, as the code has it: a non-negative id that no row carries is
    answered 404 with the message [User not found], and the database is
    what it was.  The database server is taken to answer the query. *)
Theorem get_user_not_found (user_id : Z) env db :
  0 ≤ user_id →
  connect_failure env = None → execute_failure env = None →
  Forall (λ u, row_id u ≠ user_id) (users db) →
  route_user user_id env db
  = (Answer (error_response "User not found" 404), db).
Proof.
  intros Hid Hc He Habsent. unfold route_user.
  rewrite (proj2 (Z.leb_le _ _) Hid).
  unfold get_user, try_except, mbind, handler_bind, get_db_connection, pure,
    execute_select_by_id.
  by rewrite Hc, He, find_absent.
Qed.

Lemma get_user_not_found_witness :
  route_user 2 server_up one_user
  = (Answer (error_response "User not found" 404), one_user).
Proof.
  apply (get_user_not_found 2 server_up one_user).
  - lia.
  - reflexivity.
  - reflexivity.
  - repeat constructor. simpl. lia.
Defined.

(** The claim as written fails on a negative id: no row carries -1, and
    the request is answered by the router, not by the view. *)
Lemma get_user_negative_id :
  Forall (λ u, row_id u ≠ -1) (users one_user)
  ∧ route_user (-1) server_up one_user = (NoRoute, one_user)
  ∧ route_user (-1) server_up one_user
    ≠ (Answer (error_response "User not found" 404), one_user).
Proof. split_and!; [by repeat constructor|done|done]. Qed.

(** [get_user] never writes. *)
Lemma get_user_read_only (user_id : Z) env db :
  (get_user user_id env db).2 = db.
Proof.
  unfold get_user, try_except, mbind, handler_bind, get_db_connection, pure,
    execute_select_by_id.
  destruct (connect_failure env); [done|].
  destruct (execute_failure env); [done|].
  by destruct (List.find _ _).
Qed.

(** C8: after a 201, fetching the id of the response, with the database
    server answering, gives 200 and the very body of the 201. *)
Theorem get_user_after_create (request : request_body) env env' db
    (r : response) (db' : database) :
  create_user request env db = (r, db') →
  status r = 201 →
  connect_failure env' = None → execute_failure env' = None →
  ∃ (fields : gmap str json) (id : Z),
    body r = JDict fields
    ∧ fields !! lit "id" = Some (JInt id)
    ∧ get_user id env' db' = ({| body := JDict fields; status := 200 |}, db').
Proof.
  intros Hrun H201 Hc He.
  pose proof (create_user_ends_total env db request) as Hends.
  rewrite Hrun in Hends. simpl in Hends.
  destruct Hends as [[-> _]|[[-> _]|[[-> _]|(f & l & -> & -> & Hfresh & _)]]];
    try done.
  set (user := inserted env db f l) in *.
  exists (user_dict user), (row_id user). split_and!; [done|done|].
  apply (get_user_found user); [done|done|].
  exact (find_appended (users db) user Hfresh).
Qed.

Lemma get_user_after_create_witness :
  ∃ (fields : gmap str json) (id : Z),
    body {| body := jsonify (user_dict ada_row); status := 201 |} = JDict fields
    ∧ fields !! lit "id" = Some (JInt id)
    ∧ get_user id server_up one_user = ({| body := JDict fields; status := 200 |}, one_user).
Proof.
  apply (get_user_after_create (Decoded (JDict ada)) server_up server_up no_users).
  - vm_compute. reflexivity.
  - reflexivity.
  - reflexivity.
  - reflexivity.
Defined.

End get_user_claims.

(** ** [GET /users] *)

Section get_all_users_claims.

Implicit Types (int : str → option Z) (args : query_args) (env : db_env)
  (db : database).

(** The view depends on the query string through the two effective
    values only. *)
Lemma get_all_users_effective int args args' env db :
  args_get args (lit "limit") 10 int = args_get args' (lit "limit") 10 int →
  args_get args (lit "offset") 0 int = args_get args' (lit "offset") 0 int →
  get_all_users int args env db = get_all_users int args' env db.
Proof. intros Hl Ho. unfold get_all_users. cbv zeta. by rewrite Hl, Ho. Qed.

(** [get_all_users] never writes. *)
Lemma get_all_users_read_only int args env db :
  (get_all_users int args env db).2 = db.
Proof.
  unfold get_all_users, try_except, mbind, handler_bind, get_db_connection, pure,
    execute_select_page.
  destruct (connect_failure env); [done|].
  destruct (execute_failure env); [done|].
  cbv zeta.
  destruct (negb _); [done|]. destruct (_ <? 0); [done|]. by destruct (_ <? 0).
Qed.

(** C3, as the code has it: with the effective limit and offset inside
    what PostgreSQL accepts, and the database server answering, the
    response is 200, [users] holds the rows in ascending order of id
    without the first [offset] ones and cut after [limit] ones, and the
    envelope repeats the effective values, which are 10 and 0 for absent
    parameters. *)
Theorem get_all_users_page int args env db (limit offset : Z) :
  limit = args_get args (lit "limit") 10 int →
  offset = args_get args (lit "offset") 0 int →
  connect_failure env = None → execute_failure env = None →
  0 ≤ limit < 2 ^ 63 → 0 ≤ offset < 2 ^ 63 →
  ∃ ordered page : list user_row,
    ordered ≡ₚ users db ∧ StronglySorted id_le ordered
    ∧ page = take (Z.to_nat limit) (drop (Z.to_nat offset) ordered)
    ∧ (length page ≤ Z.to_nat limit)%nat
    ∧ get_all_users int args env db
      = ({| body := jsonify {[ lit "users" := JList ((λ u, JDict (user_dict u)) <$> page);
                               lit "limit" := JInt limit;
                               lit "offset" := JInt offset ]};
            status := 200 |}, db)
    ∧ (args_lookup args (lit "limit") = None → limit = 10)
    ∧ (args_lookup args (lit "offset") = None → offset = 0).
Proof.
  intros -> -> Hc He Hl Ho.
  eexists (merge_sort id_le (users db)), _.
  split_and!; [apply merge_sort_Permutation| |reflexivity| | | |].
  - apply (StronglySorted_merge_sort id_le).
  - rewrite length_take. lia.
  - unfold get_all_users, try_except, mbind, handler_bind, get_db_connection,
      pure, execute_select_page.
    rewrite Hc, He. cbv zeta.
    rewrite (proj2 (Z.ltb_lt _ _) (proj2 Hl)), (proj2 (Z.ltb_lt _ _) (proj2 Ho)).
    rewrite (proj2 (Z.ltb_ge _ _) (proj1 Hl)), (proj2 (Z.ltb_ge _ _) (proj1 Ho)).
    reflexivity.
  - intros Habs. by apply args_get_absent.
  - intros Habs. by apply args_get_absent.
Qed.

Lemma get_all_users_page_witness :
  ∃ ordered page : list user_row,
    ordered ≡ₚ users one_user ∧ StronglySorted id_le ordered
    ∧ page = take (Z.to_nat 10) (drop (Z.to_nat 0) ordered)
    ∧ (length page ≤ Z.to_nat 10)%nat
    ∧ get_all_users Str.int [] server_up one_user
      = ({| body := jsonify {[ lit "users" := JList ((λ u, JDict (user_dict u)) <$> page);
                               lit "limit" := JInt 10;
                               lit "offset" := JInt 0 ]};
            status := 200 |}, one_user)
    ∧ (args_lookup [] (lit "limit") = None → 10 = 10)
    ∧ (args_lookup [] (lit "offset") = None → 0 = 0).
Proof.
  apply (get_all_users_page Str.int [] server_up one_user 10 0).
  - reflexivity.
  - reflexivity.
  - reflexivity.
  - reflexivity.
  - lia.
  - lia.
Defined.

(** The claim as written fails on a negative limit: PostgreSQL rejects
    the query and the response is 500. *)
Lemma get_all_users_negative_limit :
  args_get [(lit "limit", lit "-1")] (lit "limit") 10 Str.int = -1
  ∧ get_all_users Str.int [(lit "limit", lit "-1")] server_up one_user
    = (error_response "Internal server error" 500, one_user)
  ∧ status (get_all_users Str.int [(lit "limit", lit "-1")] server_up one_user).1 ≠ 200.
Proof. split_and!; [by vm_compute|by vm_compute|]. vm_compute. discriminate. Qed.

(** The example of the specification: three users, pages of two. *)
Example three_users_two_pages (a b c : user_row) env :
  connect_failure env = None → execute_failure env = None →
  row_id a = 1 → row_id b = 2 → row_id c = 3 →
  let db := {| users := [a; b; c]; users_id_seq := 3 |} in
  (get_all_users Str.int [(lit "limit", lit "2"); (lit "offset", lit "0")] env db).1
  = {| body := jsonify {[ lit "users" := JList [JDict (user_dict a); JDict (user_dict b)];
                          lit "limit" := JInt 2; lit "offset" := JInt 0 ]};
       status := 200 |}
  ∧ (get_all_users Str.int [(lit "limit", lit "2"); (lit "offset", lit "2")] env db).1
    = {| body := jsonify {[ lit "users" := JList [JDict (user_dict c)];
                            lit "limit" := JInt 2; lit "offset" := JInt 2 ]};
         status := 200 |}.
Proof.
  intros Hc He Ha Hb Hc' db.
  assert (merge_sort id_le [a; b; c] = [a; b; c]) as Hsort.
  { destruct a, b, c. simpl in Ha, Hb, Hc'. subst. reflexivity. }
  unfold get_all_users, try_except, mbind, handler_bind, get_db_connection, pure,
    execute_select_page.
  rewrite Hc, He. cbv zeta. subst db. cbn [users]. rewrite Hsort.
  split; reflexivity.
Qed.

(** C4, as the code has it: a [limit] or [offset] that [int] rejects is
    replaced by its default, and the request is answered exactly as if the
    parameter were not there. *)
Theorem get_all_users_unparseable int args (key raw : str) env db :
  key = lit "limit" ∨ key = lit "offset" →
  args_lookup args key = Some raw → int raw = None →
  get_all_users int args env db = get_all_users int (without key args) env db.
Proof.
  intros [-> | ->] Hraw Hint; apply get_all_users_effective.
  - rewrite (args_get_rejected args _ _ _ raw) by done.
    by rewrite args_get_absent by apply args_lookup_without_eq.
  - by rewrite args_get_without_ne.
  - by rewrite args_get_without_ne.
  - rewrite (args_get_rejected args _ _ _ raw) by done.
    by rewrite args_get_absent by apply args_lookup_without_eq.
Qed.

Lemma get_all_users_unparseable_witness :
  get_all_users Str.int [(lit "limit", lit "abc")] server_up one_user
  = get_all_users Str.int (without (lit "limit") [(lit "limit", lit "abc")]) server_up one_user.
Proof.
  apply (get_all_users_unparseable Str.int _ (lit "limit") (lit "abc")).
  - left. reflexivity.
  - vm_compute. reflexivity.
  - vm_compute. reflexivity.
Defined.

(** The claim as written fails: [limit=abc] is not answered with an
    internal error but with the first page of ten. *)
Lemma get_all_users_limit_abc :
  args_lookup [(lit "limit", lit "abc")] (lit "limit") = Some (lit "abc")
  ∧ Str.int (lit "abc") = None
  ∧ get_all_users Str.int [(lit "limit", lit "abc")] server_up one_user
    = ({| body := jsonify {[ lit "users" := JList [JDict (user_dict ada_row)];
                             lit "limit" := JInt 10;
                             lit "offset" := JInt 0 ]};
          status := 200 |}, one_user)
  ∧ status (get_all_users Str.int [(lit "limit", lit "abc")] server_up one_user).1 ≠ 500.
Proof. split_and!; [by vm_compute|by vm_compute|by vm_compute|]. vm_compute. discriminate. Qed.

End get_all_users_claims.

(** ** [create_user] in two stages *)

Section create_user_staging.

Implicit Types (d : gmap str json) (env : db_env) (db : database).

(** [create_user] is its validation followed, for accepted names, by the
    insertion. *)
Lemma create_user_stages (request : request_body) env db :
  create_user request env db
  = match validate request with
    | Raise e => (error_response "Internal server error" 500, db)
    | Return (inl r) => (r, db)
    | Return (inr (first_name, last_name)) =>
        try_except (insert_user env first_name last_name)
          (λ e, error_response "Internal server error" 500) db
    end.
Proof.
  unfold create_user, validate, insert_user, try_except, mbind, handler_bind,
    result_bind, pure.
  destruct (get_json request) as [data|e]; [|done].
  destruct (names_missing data) as [[|]|e]; [done| |done].
  destruct (Py.getitem data (lit "first_name")) as [v1|e]; [|done].
  destruct (Py.strip v1) as [first_name|e]; [|done].
  destruct (Py.getitem data (lit "last_name")) as [v2|e]; [|done].
  destruct (Py.strip v2) as [last_name|e]; [|done].
  by destruct (negb (Str.truthy first_name) || negb (Str.truthy last_name)).
Qed.

(** Names are accepted only from a dict that holds two strings, and they
    are what trimming leaves of them. *)
Lemma validate_accepts (request : request_body) (first_name last_name : str) :
  validate request = Return (inr (first_name, last_name)) →
  ∃ d fn ln,
    request = Decoded (JDict d)
    ∧ d !! lit "first_name" = Some (JStr fn)
    ∧ d !! lit "last_name" = Some (JStr ln)
    ∧ first_name = Str.strip fn ∧ last_name = Str.strip ln
    ∧ first_name ≠ [] ∧ last_name ≠ [].
Proof.
  unfold validate, mbind, result_bind.
  destruct request as [|data]; [done|]. simpl get_json. cbv beta iota.
  destruct (names_missing data) as [[|]|e]; [done| |done].
  destruct data as [| | | | | |d]; try done. unfold Py.getitem.
  destruct (d !! lit "first_name") as [v1|] eqn:H1; [|done].
  destruct v1 as [| | | |fn| |]; try done.
  destruct (d !! lit "last_name") as [v2|] eqn:H2; [|done].
  destruct v2 as [| | | |ln| |]; try done.
  simpl. destruct (Str.strip fn) eqn:Hf; [done|].
  destruct (Str.strip ln) eqn:Hl; [done|].
  simpl. intros [= <- <-]. exists d, fn, ln. by rewrite Hf, Hl.
Qed.

(** What the insertion does, case by case. *)
Lemma insert_user_run env db (first_name last_name : str) :
  let user := inserted env db first_name last_name in
  let internal := error_response "Internal server error" 500 in
  let drawn := {| users := users db; users_id_seq := users_id_seq db + 1 |} in
  try_except (insert_user env first_name last_name) (λ e, internal) db
  = if bool_decide (is_Some (connect_failure env) ∨ is_Some (execute_failure env))
    then (internal, db)
    else if existsb (λ u, row_id u =? row_id user) (users db) then (internal, drawn)
    else if bool_decide (is_Some (commit_failure env)) then (internal, drawn)
    else ({| body := jsonify (user_dict user); status := 201 |},
          {| users := users db ++ [user]; users_id_seq := row_id user |}).
Proof.
  unfold insert_user, try_except, mbind, handler_bind, get_db_connection, pure,
    execute_insert, commit. cbv zeta.
  destruct (connect_failure env) as [c|];
    [rewrite bool_decide_eq_true_2 by (left; eauto); done|].
  destruct (execute_failure env) as [c|];
    [rewrite bool_decide_eq_true_2 by (right; eauto); done|].
  rewrite bool_decide_eq_false_2 by (intros [[? ?]|[? ?]]; done).
  cbn [pending]. rewrite app_nil_r. simpl.
  destruct (existsb _ (users db)); [done|].
  destruct (commit_failure env) as [c|];
    [rewrite bool_decide_eq_true_2 by eauto; done|].
  rewrite bool_decide_eq_false_2 by (intros [? ?]; done). done.
Qed.

End create_user_staging.

(** ** More on [POST /user] *)

Section create_user_more.

Implicit Types (d : gmap str json) (env : db_env) (db : database).

Lemma validate_rejects (request : request_body) (r : response) :
  validate request = Return (inl r) →
  r = error_response "first_name and last_name are required" 400
  ∨ r = error_response "first_name and last_name cannot be empty" 400.
Proof.
  unfold validate, mbind, result_bind.
  destruct (get_json request) as [data|e]; [|done].
  destruct (names_missing data) as [[|]|e]; [intros [= <-]; by left| |done].
  destruct (Py.getitem data (lit "first_name")) as [v1|e]; [|done].
  destruct (Py.strip v1) as [first_name|e]; [|done].
  destruct (Py.getitem data (lit "last_name")) as [v2|e]; [|done].
  destruct (Py.strip v2) as [last_name|e]; [|done].
  destruct (negb (Str.truthy first_name) || negb (Str.truthy last_name)); [|done].
  intros [= <-]. by right.
Qed.

Lemma existsb_id_false (l : list user_row) (i : Z) :
  existsb (λ u, row_id u =? i) l = false ↔ i ∉ row_id <$> l.
Proof.
  induction l as [|u l IH]; simpl.
  - split; [intros _; apply not_elem_of_nil|done].
  - rewrite not_elem_of_cons, orb_false_iff, IH, Z.eqb_neq. intuition congruence.
Qed.

(** X1: only a dict with two string names, both non-empty once trimmed,
    and a database server that accepts connection, statement and commit
    lead to a 201; the table then grows by the row of the trimmed names. *)
Theorem create_user_created_only_if (request : request_body) env db :
  status (create_user request env db).1 = 201 →
  ∃ d fn ln,
    request = Decoded (JDict d)
    ∧ d !! lit "first_name" = Some (JStr fn)
    ∧ d !! lit "last_name" = Some (JStr ln)
    ∧ Str.strip fn ≠ [] ∧ Str.strip ln ≠ []
    ∧ connect_failure env = None ∧ execute_failure env = None
    ∧ commit_failure env = None
    ∧ users (create_user request env db).2
      = users db ++ [inserted env db (Str.strip fn) (Str.strip ln)].
Proof.
  rewrite create_user_stages.
  destruct (validate request) as [[r|[f l]]|e] eqn:Hv; simpl; [| |done].
  { by destruct (validate_rejects _ _ Hv) as [-> | ->]. }
  destruct (validate_accepts _ _ _ Hv) as (d & fn & ln & -> & H1 & H2 & -> & -> & Hf & Hl).
  rewrite insert_user_run. cbv zeta.
  case_bool_decide as Hce; [done|].
  destruct (existsb _ (users db)); [done|].
  case_bool_decide as Hm; [done|]. intros _.
  exists d, fn, ln. split_and!; try done.
  - destruct (connect_failure env); [|done]. destruct Hce. left. eauto.
  - destruct (execute_failure env); [|done]. destruct Hce. right. eauto.
  - destruct (commit_failure env); [|done]. destruct Hm. eauto.
Qed.

Lemma create_user_created_only_if_witness :
  ∃ d fn ln,
    Decoded (JDict ada) = Decoded (JDict d)
    ∧ d !! lit "first_name" = Some (JStr fn)
    ∧ d !! lit "last_name" = Some (JStr ln)
    ∧ Str.strip fn ≠ [] ∧ Str.strip ln ≠ []
    ∧ connect_failure server_up = None ∧ execute_failure server_up = None
    ∧ commit_failure server_up = None
    ∧ users (create_user (Decoded (JDict ada)) server_up no_users).2
      = users no_users ++ [inserted server_up no_users (Str.strip fn) (Str.strip ln)].
Proof.
  apply (create_user_created_only_if (Decoded (JDict ada)) server_up no_users).
  vm_compute. reflexivity.
Defined.

(** X2: a 400 is decided before the database is contacted: the same
    request gets the same response whatever the server does and whatever the
    table holds, and the database is returned as it was received. *)
Theorem create_user_rejection_fixed (request : request_body) env db :
  status (create_user request env db).1 = 400 →
  ∀ env' db',
    create_user request env' db' = ((create_user request env db).1, db').
Proof.
  rewrite !create_user_stages. intros H400 env' db'. rewrite create_user_stages.
  destruct (validate request) as [[r|[f l]]|e] eqn:Hv; simpl in *; [done| |done].
  rewrite insert_user_run in H400. cbv zeta in H400.
  repeat (case_bool_decide || destruct (existsb _ _)); done.
Qed.

Lemma create_user_rejection_fixed_witness :
  create_user (Decoded (JDict ∅)) server_down one_user
  = ((create_user (Decoded (JDict ∅)) server_up no_users).1, one_user).
Proof.
  apply (create_user_rejection_fixed (Decoded (JDict ∅)) server_up no_users).
  vm_compute. reflexivity.
Defined.

(** X3: a body that is not a JSON object never reaches the database: its
    response, a 400 or a 500, is the same whatever the server does, and the
    database, sequence included, is returned as it was received. *)
Theorem create_user_non_object (request : request_body) :
  (∀ d, request ≠ Decoded (JDict d)) →
  ∃ r, (status r = 400 ∨ status r = 500)
       ∧ ∀ env db, create_user request env db = (r, db).
Proof.
  intros Hnd.
  destruct (validate request) as [[r|[f l]]|e] eqn:Hv.
  - exists r. split; [by destruct (validate_rejects _ _ Hv) as [-> | ->]; left|].
    intros env db. by rewrite create_user_stages, Hv.
  - destruct (validate_accepts _ _ _ Hv) as (d & fn & ln & -> & _). by destruct (Hnd d).
  - exists (error_response "Internal server error" 500). split; [by right|].
    intros env db. by rewrite create_user_stages, Hv.
Qed.

Lemma create_user_non_object_witness :
  ∃ r, (status r = 400 ∨ status r = 500)
       ∧ ∀ env db, create_user (Decoded (JList [JInt 1])) env db = (r, db).
Proof. apply (create_user_non_object (Decoded (JList [JInt 1]))). intros d. discriminate. Defined.

End create_user_more.

(** ** Bodies that are lists or strings *)

Section create_user_containers.

Implicit Types (env : db_env) (db : database).

Lemma startswith_spec (p s : str) :
  Str.startswith p s = true ↔ ∃ t, s = p ++ t.
Proof.
  revert s. induction p as [|a p IH]; intros s; simpl.
  - split; [intros _; by exists s|done].
  - destruct s as [|b s]; [split; [done|intros [t [=]]]|].
    rewrite andb_true_iff, N.eqb_eq, IH. split.
    + intros [-> [t ->]]. by exists t.
    + intros [t [= -> ->]]. eauto.
Qed.

(** [p in s] on strings is the substring test. *)
Lemma contains_spec (p s : str) :
  Str.contains p s = true ↔ ∃ l r, s = l ++ p ++ r.
Proof.
  induction s as [|c s IH]; simpl.
  - rewrite orb_false_r, startswith_spec. split.
    + intros [t Ht]. by exists [], t.
    + intros (l & r & Hs). symmetry in Hs.
      apply app_eq_nil in Hs as [-> Hs]. apply app_eq_nil in Hs as [-> ->]. by exists [].
  - rewrite orb_true_iff, startswith_spec, IH. split.
    + intros [[t Ht]|(l & r & ->)]; [by exists [], t|by exists (c :: l), r].
    + intros ([|c' l] & r & Hs); [left; by exists r|].
      injection Hs as -> ->. right. by exists l, r.
Qed.

Lemma existsb_eq_str (k : str) (l : list json) :
  existsb (Py.eq_str k) l = true ↔ JStr k ∈ l.
Proof.
  rewrite existsb_exists. setoid_rewrite <- list_elem_of_In. split.
  - intros (v & Hv & Heq). destruct v; try done. simpl in Heq.
    by apply bool_decide_eq_true_1 in Heq as ->.
  - intros Hk. exists (JStr k). split; [done|]. simpl. by apply bool_decide_eq_true_2.
Qed.

(** X4: the membership test accepts more than dicts.  A JSON array that
    holds the two strings [first_name] and [last_name], and a JSON string
    in which both occur, pass it; indexing them by a string then raises, and
    the answer is 500, not the 400 of a missing name. *)
Theorem create_user_names_not_keys (data : json) env db :
  (∃ l, data = JList l ∧ JStr (lit "first_name") ∈ l ∧ JStr (lit "last_name") ∈ l)
  ∨ (∃ s a b a' b', data = JStr s ∧ s = a ++ lit "first_name" ++ b
                    ∧ s = a' ++ lit "last_name" ++ b') →
  create_user (Decoded data) env db
  = (error_response "Internal server error" 500, db).
Proof.
  intros [(l & -> & H1 & H2)|(s & a & b & a' & b' & -> & H1 & H2)];
    rewrite create_user_stages; unfold validate, mbind, result_bind, names_missing;
    simpl get_json; cbv beta iota.
  - apply existsb_eq_str in H1, H2.
    assert (Py.truthy (JList l) = true) as -> by (by destruct l).
    simpl. by rewrite H1, H2.
  - assert (Str.contains (lit "first_name") s = true) as Hc1
      by (apply contains_spec; eauto).
    assert (Str.contains (lit "last_name") s = true) as Hc2
      by (apply contains_spec; eauto).
    assert (Py.truthy (JStr s) = true) as ->.
    { subst s. by destruct a. }
    unfold Py.contains. cbv beta iota. rewrite Hc1. cbv beta iota. simpl negb.
    cbv beta iota. by rewrite Hc2.
Qed.

Lemma create_user_names_not_keys_witness :
  create_user (Decoded (JList [JStr (lit "first_name"); JStr (lit "last_name")]))
    server_up no_users
  = (error_response "Internal server error" 500, no_users).
Proof.
  apply create_user_names_not_keys. left. eexists. split; [reflexivity|].
  split; [apply list_elem_of_here|apply list_elem_of_further, list_elem_of_here].
Defined.

End create_user_containers.

(** ** What [create_user] keeps true of the table *)

Section create_user_invariants.

Implicit Types (env : db_env) (db : database).

(** X5: no run of [create_user] puts a second row under an id that is
    in the table, whatever the request and whatever the server does. *)
Theorem create_user_unique_ids (request : request_body) env db :
  NoDup (ids db) → NoDup (ids (create_user request env db).2).
Proof.
  intros Hnd. pose proof (create_user_ends_total env db request) as Hends.
  destruct (create_user request env db) as [r db']. simpl in *. unfold ids in *.
  destruct Hends as [[_ ->]|[[_ ->]|[(_ & -> & _)|(f & l & _ & -> & Hfresh & _)]]];
    try done.
  simpl. rewrite fmap_app. apply NoDup_app. split_and!; [done| |apply NoDup_singleton].
  intros i Hi Hi'. apply list_elem_of_singleton in Hi' as ->.
  by apply existsb_id_false in Hfresh.
Qed.

Lemma create_user_unique_ids_witness :
  NoDup (ids (create_user (Decoded (JDict ada)) server_up one_user).2).
Proof.
  apply (create_user_unique_ids (Decoded (JDict ada)) server_up one_user).
  apply NoDup_singleton.
Defined.

Lemma strip_trimmed (s : str) : Str.strip s ≠ [] → trimmed (Str.strip s).
Proof.
  intros Hne. destruct (strip_spec s) as (l & r & _ & _ & _ & Hhd & Hlast).
  by split_and!.
Qed.

(** X6: the names [create_user] stores are never empty and never start
    or end with whitespace: a table of such names stays one. *)
Theorem create_user_names_trimmed (request : request_body) env db :
  names_trimmed db → names_trimmed (create_user request env db).2.
Proof.
  unfold names_trimmed. intros Hdb. rewrite create_user_stages.
  destruct (validate request) as [[r|[f l]]|e] eqn:Hv; simpl; [done| |done].
  destruct (validate_accepts _ _ _ Hv) as (d & fn & ln & _ & _ & _ & -> & -> & Hf & Hl).
  rewrite insert_user_run. cbv zeta.
  case_bool_decide; [done|]. destruct (existsb _ (users db)); [done|].
  case_bool_decide; [done|]. simpl.
  apply Forall_app_2; [done|]. apply Forall_singleton. simpl.
  split; by apply strip_trimmed.
Qed.

Lemma create_user_names_trimmed_witness :
  names_trimmed (create_user (Decoded (JDict ada)) server_up no_users).2.
Proof.
  apply (create_user_names_trimmed (Decoded (JDict ada)) server_up no_users).
  constructor.
Defined.

Lemma create_user_ordered (request : request_body) env db :
  db_ordered db → db_ordered (create_user request env db).2.
Proof.
  intros [Hsorted Hwf]. pose proof (create_user_ends_total env db request) as Hends.
  destruct (create_user request env db) as [r db']. simpl in *.
  unfold db_ordered, db_wf in *.
  destruct Hends as [[_ ->]|[[_ ->]|[(_ & Hu & Hseq)|(f & l & _ & -> & _)]]].
  1-2: done.
  - rewrite Hu. split; [done|]. eapply Forall_impl; [done|]. simpl. lia.
  - simpl. assert (Forall (λ u, row_id u < users_id_seq db + 1) (users db)) as Hlt.
    { eapply Forall_impl; [done|]. simpl. lia. }
    split.
    + apply StronglySorted_app_2; [|done|repeat constructor].
      intros u v Hu Hv. apply list_elem_of_singleton in Hv as ->.
      rewrite Forall_forall in Hlt. by apply Hlt.
    + apply Forall_app_2; [|apply Forall_singleton; simpl; lia].
      eapply Forall_impl; [done|]. simpl. lia.
Qed.

(** X7: ids grow with creation.  In a table stored by increasing id,
    with all ids from the sequence, a 201 returns an id above every id of
    the table, and every run, created or not, leaves such a table. *)
Theorem create_user_ids_increase (request : request_body) env db :
  db_ordered db →
  db_ordered (create_user request env db).2
  ∧ (status (create_user request env db).1 = 201 →
     ∃ (fields : gmap str json) (id : Z),
       body (create_user request env db).1 = JDict fields
       ∧ fields !! lit "id" = Some (JInt id)
       ∧ Forall (λ i, i < id) (ids db)).
Proof.
  intros Hord. split; [by apply create_user_ordered|].
  destruct Hord as [_ Hwf].
  pose proof (create_user_ends_total env db request) as Hends.
  destruct (create_user request env db) as [r db']. simpl in *.
  destruct Hends as [[-> _]|[[-> _]|[(-> & _)|(f & l & -> & _)]]]; try done.
  intros _. eexists _, _. split_and!; [done|done|].
  unfold ids, db_wf in *. apply Forall_fmap.
  eapply Forall_impl; [done|]. simpl. lia.
Qed.

Lemma create_user_ids_increase_witness :
  db_ordered (create_user (Decoded (JDict ada)) server_up one_user).2
  ∧ (status (create_user (Decoded (JDict ada)) server_up one_user).1 = 201 →
     ∃ (fields : gmap str json) (id : Z),
       body (create_user (Decoded (JDict ada)) server_up one_user).1 = JDict fields
       ∧ fields !! lit "id" = Some (JInt id)
       ∧ Forall (λ i, i < id) (ids one_user)).
Proof.
  apply (create_user_ids_increase (Decoded (JDict ada)) server_up one_user).
  split; [repeat constructor|apply db_wf_one_user].
Defined.

End create_user_invariants.

(** ** More on the reading views *)

Section read_views.

Implicit Types (int : str → option Z) (args : query_args) (env : db_env)
  (db : database).

Lemma find_unique (l : list user_row) (user : user_row) :
  NoDup (row_id <$> l) → user ∈ l →
  List.find (λ u, row_id u =? row_id user) l = Some user.
Proof.
  induction l as [|v l IH]; intros Hnd Hin; [by apply elem_of_nil in Hin|].
  rewrite fmap_cons in Hnd. apply NoDup_cons in Hnd as [Hv Hnd].
  apply elem_of_cons in Hin as [->|Hin]; simpl.
  - by rewrite Z.eqb_refl.
  - destruct (row_id v =? row_id user) eqn:Heq; [|by apply IH].
    apply Z.eqb_eq in Heq. destruct Hv. rewrite Heq.
    by apply list_elem_of_fmap_2.
Qed.

(** X8: with distinct ids in the table and the server answering, every
    stored row is what [GET /user/<its id>] returns: 200 with the four
    fields of that row, and the database is what it was. *)
Theorem get_user_returns_row (user : user_row) env db :
  connect_failure env = None → execute_failure env = None →
  NoDup (ids db) → user ∈ users db →
  get_user (row_id user) env db
  = ({| body := jsonify (user_dict user); status := 200 |}, db).
Proof.
  intros Hc He Hnd Hin. apply get_user_found; [done|done|].
  by apply find_unique.
Qed.

Lemma get_user_returns_row_witness :
  get_user (row_id ada_row) server_up one_user
  = ({| body := jsonify (user_dict ada_row); status := 200 |}, one_user).
Proof.
  apply (get_user_returns_row ada_row server_up one_user).
  - reflexivity.
  - reflexivity.
  - apply NoDup_singleton.
  - apply list_elem_of_here.
Defined.

(** X9: when the server refuses the connection or the query, both
    reading views answer 500 with the fixed message, in which nothing of
    the cause appears, and the database is what it was; for
    [GET /user/<id>] the id is one that reaches the view. *)
Theorem read_views_database_failure int args (user_id : Z) env db :
  0 ≤ user_id →
  is_Some (connect_failure env) ∨ is_Some (execute_failure env) →
  route_user user_id env db
  = (Answer (error_response "Internal server error" 500), db)
  ∧ get_all_users int args env db = (error_response "Internal server error" 500, db).
Proof.
  intros Hid Hfail. unfold route_user. rewrite (proj2 (Z.leb_le _ _) Hid).
  unfold get_user, get_all_users, try_except, mbind, handler_bind,
    get_db_connection, pure, execute_select_by_id, execute_select_page.
  destruct (connect_failure env) as [c|]; [done|].
  destruct (execute_failure env) as [c|]; [done|].
  by destruct Hfail as [[? ?]|[? ?]].
Qed.

Lemma read_views_database_failure_witness :
  route_user 1 server_down one_user
  = (Answer (error_response "Internal server error" 500), one_user)
  ∧ get_all_users Str.int [] server_down one_user
    = (error_response "Internal server error" 500, one_user).
Proof.
  apply (read_views_database_failure Str.int [] 1 server_down one_user).
  - lia.
  - left. eexists. reflexivity.
Defined.

End read_views.

(** ** [GET /health] *)

Section health_check_facts.

Implicit Types (int : str → option Z) (args : query_args) (env : db_env)
  (db : database).

(** X10: when the server accepts the connection the probe answers 200
    with [status] healthy and [timestamp], which is the current time,
    a naive UTC time, rendered in ISO-8601: decoding it gives that time
    back.  This holds whether or not statements or commits would fail and
    whatever the table holds; the database is what it was. *)
Theorem health_check_healthy (now : datetime) env db :
  connect_failure env = None →
  Datetime.valid now → utcoffset now = None →
  ∃ timestamp,
    health_check now env db
    = ({| body := jsonify {[ lit "status" := JStr (lit "healthy");
                             lit "timestamp" := JStr timestamp ]};
          status := 200 |}, db)
    ∧ timestamp = Datetime.isoformat now
    ∧ Datetime.parse_iso8601 timestamp = Some now.
Proof.
  intros Hc Hnow Hnaive. exists (Datetime.isoformat now).
  split_and!; [|done|].
  - unfold health_check, try_except, mbind, handler_bind, get_db_connection, pure.
    by rewrite Hc.
  - apply parse_isoformat; [done|]. unfold Datetime.whole_minutes. by rewrite Hnaive.
Qed.

Lemma health_check_healthy_witness :
  ∃ timestamp,
    health_check noon server_up one_user
    = ({| body := jsonify {[ lit "status" := JStr (lit "healthy");
                             lit "timestamp" := JStr timestamp ]};
          status := 200 |}, one_user)
    ∧ timestamp = lit "2024-03-09T12:00:00"
    ∧ Datetime.parse_iso8601 timestamp = Some noon.
Proof.
  apply (health_check_healthy noon server_up one_user).
  - reflexivity.
  - unfold Datetime.valid. simpl. lia.
  - reflexivity.
Defined.

(** X11: when the connection fails the probe answers 503 with [status]
    unhealthy and, unlike the other views, the message of the failure as it
    is; the database is what it was. *)
Theorem health_check_unhealthy (now : datetime) (cause : str) env db :
  connect_failure env = Some cause →
  health_check now env db
  = ({| body := jsonify {[ lit "status" := JStr (lit "unhealthy");
                           lit "error" := JStr cause ]};
        status := 503 |}, db).
Proof.
  intros Hc.
  unfold health_check, try_except, mbind, handler_bind, get_db_connection, pure.
  by rewrite Hc.
Qed.

Lemma health_check_unhealthy_witness :
  health_check noon server_down one_user
  = ({| body := jsonify {[ lit "status" := JStr (lit "unhealthy");
                           lit "error" := JStr (lit "connection refused") ]};
        status := 503 |}, one_user).
Proof. apply (health_check_unhealthy noon (lit "connection refused")). reflexivity. Defined.

Lemma health_check_read_only (now : datetime) env db :
  (health_check now env db).2 = db.
Proof.
  unfold health_check, try_except, mbind, handler_bind, get_db_connection, pure.
  by destruct (connect_failure env).
Qed.

(** X12: the three views that read never write: whatever the request and
    whatever the server does, failures included, the database after
    [get_user], [get_all_users] and [health_check] is the database
    before. *)
Theorem read_views_never_write int args (user_id : Z) (now : datetime) env db :
  (get_user user_id env db).2 = db
  ∧ (get_all_users int args env db).2 = db
  ∧ (health_check now env db).2 = db.
Proof.
  split_and!;
    [apply get_user_read_only|apply get_all_users_read_only|apply health_check_read_only].
Qed.

(** X13: the status codes of each view: [create_user] answers 201, 400
    or 500, [get_user] 200, 404 or 500, [get_all_users] 200 or 500, never a
    400 for a bad parameter, and [health_check] 200 or 503. *)
Theorem views_status_codes (request : request_body) int args (user_id : Z)
    (now : datetime) env db :
  status (create_user request env db).1 ∈ [201; 400; 500]
  ∧ status (get_user user_id env db).1 ∈ [200; 404; 500]
  ∧ status (get_all_users int args env db).1 ∈ [200; 500]
  ∧ status (health_check now env db).1 ∈ [200; 503].
Proof.
  split_and!.
  - pose proof (create_user_ends_total env db request) as Hends.
    destruct (create_user request env db) as [r db']. simpl in *.
    destruct Hends as [[-> _]|[[-> _]|[(-> & _)|(f & l & -> & _)]]]; simpl;
      set_solver.
  - unfold get_user, try_except, mbind, handler_bind, get_db_connection, pure,
      execute_select_by_id.
    destruct (connect_failure env); [simpl; set_solver|].
    destruct (execute_failure env); [simpl; set_solver|].
    destruct (List.find _ _); simpl; set_solver.
  - unfold get_all_users, try_except, mbind, handler_bind, get_db_connection,
      pure, execute_select_page.
    destruct (connect_failure env); [simpl; set_solver|].
    destruct (execute_failure env); [simpl; set_solver|].
    cbv zeta. destruct (negb _); [simpl; set_solver|].
    destruct (_ <? 0); [simpl; set_solver|].
    destruct (_ <? 0); simpl; set_solver.
  - unfold health_check, try_except, mbind, handler_bind, get_db_connection, pure.
    destruct (connect_failure env); simpl; set_solver.
Qed.

End health_check_facts.

(** ** Paging through [GET /users] *)

Section paging.

Implicit Types (int : str → option Z) (args : query_args) (env : db_env)
  (db : database).

(** The listing, when the server answers and both values are in range. *)
Lemma get_all_users_run int args env db :
  let limit := args_get args (lit "limit") 10 int in
  let offset := args_get args (lit "offset") 0 int in
  connect_failure env = None → execute_failure env = None →
  0 ≤ limit < 2 ^ 63 → 0 ≤ offset < 2 ^ 63 →
  status (get_all_users int args env db).1 = 200
  ∧ users_of (get_all_users int args env db).1
    = Some (listed (take (Z.to_nat limit)
                      (drop (Z.to_nat offset) (merge_sort id_le (users db))))).
Proof.
  intros limit offset Hc He Hl Ho.
  unfold get_all_users, try_except, mbind, handler_bind, get_db_connection,
    pure, execute_select_page.
  rewrite Hc, He. cbv zeta. fold limit offset.
  rewrite (proj2 (Z.ltb_lt _ _) (proj2 Hl)), (proj2 (Z.ltb_lt _ _) (proj2 Ho)).
  rewrite (proj2 (Z.ltb_ge _ _) (proj1 Hl)), (proj2 (Z.ltb_ge _ _) (proj1 Ho)).
  split; [done|]. unfold users_of. simpl.
  rewrite lookup_insert_eq. done.
Qed.

(** A table stored by increasing id is its own [ORDER BY id]. *)
Lemma merge_sort_ordered (l : list user_row) :
  StronglySorted id_lt l → merge_sort id_le l = l.
Proof.
  intros Hl. apply (StronglySorted_unique_strong id_le).
  - intros u v Hu Hv Huv Hvu. rewrite merge_sort_Permutation in Hu.
    unfold id_le in *. assert (row_id u = row_id v) as Heq by lia.
    clear Huv Hvu. induction Hl as [|w l Hl IH Hw]; [by apply elem_of_nil in Hu|].
    rewrite Forall_forall in Hw. unfold id_lt in Hw.
    apply elem_of_cons in Hu as [->|Hu]; apply elem_of_cons in Hv as [->|Hv].
    + done.
    + specialize (Hw _ Hv). lia.
    + specialize (Hw _ Hu). lia.
    + by apply IH.
  - apply (StronglySorted_merge_sort id_le).
  - clear -Hl. induction Hl as [|w l Hl IH Hw]; constructor; [done|].
    eapply Forall_impl; [done|]. unfold id_lt, id_le. intros; lia.
  - apply merge_sort_Permutation.
Qed.

(** X14: an effective limit or offset that is negative, or too large
    for a [bigint], always ends in 500, and the database is what it was. *)
Theorem get_all_users_out_of_range int args env db (limit offset : Z) :
  limit = args_get args (lit "limit") 10 int →
  offset = args_get args (lit "offset") 0 int →
  ¬ (0 ≤ limit < 2 ^ 63 ∧ 0 ≤ offset < 2 ^ 63) →
  get_all_users int args env db = (error_response "Internal server error" 500, db).
Proof.
  intros -> -> Hout.
  unfold get_all_users, try_except, mbind, handler_bind, get_db_connection,
    pure, execute_select_page.
  destruct (connect_failure env); [done|].
  destruct (execute_failure env); [done|]. cbv zeta.
  destruct (args_get args (lit "limit") 10 int <? 2 ^ 63) eqn:H1;
    destruct (args_get args (lit "offset") 0 int <? 2 ^ 63) eqn:H2; try done.
  destruct (args_get args (lit "limit") 10 int <? 0) eqn:H3; [done|].
  destruct (args_get args (lit "offset") 0 int <? 0) eqn:H4; [done|].
  destruct Hout. lia.
Qed.

Lemma get_all_users_out_of_range_witness :
  get_all_users Str.int [(lit "offset", lit "-5")] server_up one_user
  = (error_response "Internal server error" 500, one_user).
Proof.
  apply (get_all_users_out_of_range Str.int _ server_up one_user 10 (-5)).
  - vm_compute. reflexivity.
  - vm_compute. reflexivity.
  - lia.
Defined.

(** X15: in a table stored by increasing id the listing is in the order
    of storage: the rows after the first [offset] ones, cut after [limit]
    ones. *)
Theorem get_all_users_storage_order int args env db (limit offset : Z) :
  limit = args_get args (lit "limit") 10 int →
  offset = args_get args (lit "offset") 0 int →
  connect_failure env = None → execute_failure env = None →
  0 ≤ limit < 2 ^ 63 → 0 ≤ offset < 2 ^ 63 →
  StronglySorted id_lt (users db) →
  users_of (get_all_users int args env db).1
  = Some (listed (take (Z.to_nat limit) (drop (Z.to_nat offset) (users db)))).
Proof.
  intros -> -> Hc He Hl Ho Hsorted.
  destruct (get_all_users_run int args env db Hc He Hl Ho) as [_ ->].
  by rewrite merge_sort_ordered.
Qed.

Lemma get_all_users_storage_order_witness :
  users_of (get_all_users Str.int [] server_up one_user).1
  = Some (listed (take (Z.to_nat 10) (drop (Z.to_nat 0) (users one_user)))).
Proof.
  apply (get_all_users_storage_order Str.int [] server_up one_user 10 0).
  - reflexivity.
  - reflexivity.
  - reflexivity.
  - reflexivity.
  - lia.
  - lia.
  - repeat constructor.
Defined.

(** X16: the number of users in a page is the limit, or what is left of
    the table after the offset when that is less; in particular an offset
    past the end gives an empty page, still with 200. *)
Theorem get_all_users_count int args env db (limit offset : Z) :
  limit = args_get args (lit "limit") 10 int →
  offset = args_get args (lit "offset") 0 int →
  connect_failure env = None → execute_failure env = None →
  0 ≤ limit < 2 ^ 63 → 0 ≤ offset < 2 ^ 63 →
  ∃ page,
    status (get_all_users int args env db).1 = 200
    ∧ users_of (get_all_users int args env db).1 = Some page
    ∧ length page
      = (Z.to_nat limit `min` (length (users db) - Z.to_nat offset))%nat.
Proof.
  intros -> -> Hc He Hl Ho.
  destruct (get_all_users_run int args env db Hc He Hl Ho) as [H200 ->].
  eexists. split_and!; [done|done|]. unfold listed.
  rewrite length_fmap, length_take, length_drop.
  by rewrite (Permutation_length (merge_sort_Permutation id_le (users db))).
Qed.

Lemma get_all_users_count_witness :
  ∃ page,
    status (get_all_users Str.int [(lit "offset", lit "7")] server_up one_user).1 = 200
    ∧ users_of (get_all_users Str.int [(lit "offset", lit "7")] server_up one_user).1
      = Some page
    ∧ length page = (Z.to_nat 10 `min` (length (users one_user) - Z.to_nat 7))%nat.
Proof.
  apply (get_all_users_count Str.int _ server_up one_user 10 7).
  - vm_compute. reflexivity.
  - vm_compute. reflexivity.
  - reflexivity.
  - reflexivity.
  - lia.
  - lia.
Defined.

(** X17: consecutive pages join: the page of [n] rows at offset [o]
    followed by the page of [m] rows at offset [o + n] is the page of
    [n + m] rows at offset [o]; paging loses and repeats nothing. *)
Theorem get_all_users_pages_join int args1 args2 args env db (n m o : Z) :
  args_get args1 (lit "limit") 10 int = n →
  args_get args1 (lit "offset") 0 int = o →
  args_get args2 (lit "limit") 10 int = m →
  args_get args2 (lit "offset") 0 int = o + n →
  args_get args (lit "limit") 10 int = n + m →
  args_get args (lit "offset") 0 int = o →
  connect_failure env = None → execute_failure env = None →
  0 ≤ n → 0 ≤ m → 0 ≤ o → n + m < 2 ^ 63 → o + n < 2 ^ 63 →
  ∃ page1 page2,
    users_of (get_all_users int args1 env db).1 = Some page1
    ∧ users_of (get_all_users int args2 env db).1 = Some page2
    ∧ users_of (get_all_users int args env db).1 = Some (page1 ++ page2).
Proof.
  intros Hn1 Ho1 Hm2 Ho2 Hnm Ho Hc He ?????.
  destruct (get_all_users_run int args1 env db Hc He) as [_ ->]; [lia..|].
  destruct (get_all_users_run int args2 env db Hc He) as [_ ->]; [lia..|].
  destruct (get_all_users_run int args env db Hc He) as [_ ->]; [lia..|].
  eexists _, _. split_and!; [done|done|].
  rewrite Hn1, Ho1, Hm2, Ho2, Hnm, Ho. unfold listed.
  rewrite <- fmap_app. do 2 f_equal.
  rewrite !Z2Nat.inj_add by lia. rewrite <- drop_drop. symmetry. apply take_take_drop.
Qed.

Lemma get_all_users_pages_join_witness :
  ∃ page1 page2,
    users_of (get_all_users Str.int [(lit "limit", lit "2")] server_up one_user).1
    = Some page1
    ∧ users_of (get_all_users Str.int [(lit "limit", lit "3"); (lit "offset", lit "2")]
                  server_up one_user).1
      = Some page2
    ∧ users_of (get_all_users Str.int [(lit "limit", lit "5")] server_up one_user).1
      = Some (page1 ++ page2).
Proof.
  apply (get_all_users_pages_join Str.int _ _ _ server_up one_user 2 3 0).
  all: try (vm_compute; reflexivity).
  all: lia.
Defined.



(** X19: a user that was just created closes the listing: after a 201
    on a table stored by increasing id, a listing from offset 0 with a limit
    above the number of rows shows the rows of before, in their order, and
    then the very body of the 201. *)
Theorem create_user_then_list (request : request_body) int args env env' db
    (r : response) (db' : database) (limit : Z) :
  db_ordered db →
  create_user request env db = (r, db') → status r = 201 →
  args_get args (lit "limit") 10 int = limit →
  args_get args (lit "offset") 0 int = 0 →
  connect_failure env' = None → execute_failure env' = None →
  Z.of_nat (length (users db)) < limit < 2 ^ 63 →
  users_of (get_all_users int args env' db').1
  = Some (listed (users db) ++ [body r]).
Proof.
  intros Hord Hrun H201 Hlimit Hoffset Hc He Hlen.
  pose proof (create_user_ordered request env db Hord) as [Hsorted' _].
  pose proof (create_user_ends_total env db request) as Hends.
  rewrite Hrun in Hends, Hsorted'. simpl in *.
  destruct Hends as [[-> _]|[[-> _]|[(-> & _)|(f & l & -> & -> & _)]]]; try done.
  destruct (get_all_users_run int args env'
              {| users := users db ++ [inserted env db f l];
                 users_id_seq := row_id (inserted env db f l) |} Hc He) as [_ ->];
    [lia..|].
  rewrite merge_sort_ordered by done.
  rewrite Hlimit, Hoffset. cbn [users body]. change (Z.to_nat 0) with 0%nat.
  rewrite drop_0, take_ge by (rewrite length_app; simpl; lia).
  unfold listed. by rewrite fmap_app.
Qed.

Lemma create_user_then_list_witness :
  users_of (get_all_users Str.int [] server_up one_user).1
  = Some (listed (users no_users)
          ++ [body {| body := jsonify (user_dict ada_row); status := 201 |}]).
Proof.
  apply (create_user_then_list (Decoded (JDict ada)) Str.int [] server_up server_up
           no_users _ one_user 10).
  - split; constructor.
  - vm_compute. reflexivity.
  - reflexivity.
  - reflexivity.
  - reflexivity.
  - reflexivity.
  - reflexivity.
  - simpl. lia.
Defined.

End paging.

(** ** Repeating and respelling a creation *)

Section create_user_again.

Implicit Types (d : gmap str json) (env : db_env) (db : database).

(** A good request on a working server, in full. *)
Lemma create_user_run d (fn ln : str) env db :
  d !! lit "first_name" = Some (JStr fn) →
  d !! lit "last_name" = Some (JStr ln) →
  Str.strip fn ≠ [] → Str.strip ln ≠ [] →
  connect_failure env = None → execute_failure env = None →
  commit_failure env = None → db_wf db →
  let user := inserted env db (Str.strip fn) (Str.strip ln) in
  create_user (Decoded (JDict d)) env db
  = ({| body := jsonify (user_dict user); status := 201 |},
     {| users := users db ++ [user]; users_id_seq := users_id_seq db + 1 |}).
Proof.
  intros H1 H2 Hfn Hln Hc He Hm Hwf user.
  rewrite (create_user_dict env db d _ _ H1 H2). unfold try_except.
  rewrite create_user_names_created; try done.
  apply db_wf_fresh; [done|lia].
Qed.

(** X20: [create_user] does not look for an existing user of the same
    name: the same good request sent twice to a working server is answered
    201 twice and leaves two rows with the same names and consecutive
    ids. *)
Theorem create_user_twice d (fn ln : str) env1 env2 db :
  d !! lit "first_name" = Some (JStr fn) →
  d !! lit "last_name" = Some (JStr ln) →
  Str.strip fn ≠ [] → Str.strip ln ≠ [] →
  connect_failure env1 = None → execute_failure env1 = None →
  commit_failure env1 = None →
  connect_failure env2 = None → execute_failure env2 = None →
  commit_failure env2 = None →
  db_wf db →
  let first := create_user (Decoded (JDict d)) env1 db in
  let second := create_user (Decoded (JDict d)) env2 first.2 in
  status first.1 = 201 ∧ status second.1 = 201
  ∧ ∃ u1 u2,
      users second.2 = users db ++ [u1; u2]
      ∧ row_id u2 = row_id u1 + 1
      ∧ row_first_name u1 = Str.strip fn ∧ row_first_name u2 = Str.strip fn
      ∧ row_last_name u1 = Str.strip ln ∧ row_last_name u2 = Str.strip ln.
Proof.
  intros H1 H2 Hfn Hln Hc1 He1 Hm1 Hc2 He2 Hm2 Hwf first second.
  assert (db_wf first.2) as Hwf' by apply create_user_wf, Hwf.
  subst second. rewrite (create_user_run d fn ln env2 first.2) by done.
  subst first. rewrite (create_user_run d fn ln env1 db) by done.
  cbn [fst snd status users users_id_seq].
  split_and!; [done|done|]. eexists _, _.
  rewrite <- app_assoc. by split_and!.
Qed.

Lemma create_user_twice_witness :
  let first := create_user (Decoded (JDict ada)) server_up no_users in
  let second := create_user (Decoded (JDict ada)) server_up first.2 in
  status first.1 = 201 ∧ status second.1 = 201
  ∧ ∃ u1 u2,
      users second.2 = users no_users ++ [u1; u2]
      ∧ row_id u2 = row_id u1 + 1
      ∧ row_first_name u1 = Str.strip (lit " Ada ")
      ∧ row_first_name u2 = Str.strip (lit " Ada ")
      ∧ row_last_name u1 = Str.strip (lit " Lovelace ")
      ∧ row_last_name u2 = Str.strip (lit " Lovelace ").
Proof.
  apply (create_user_twice ada (lit " Ada ") (lit " Lovelace ") server_up server_up
           no_users).
  1-2: vm_compute; reflexivity.
  1-2: vm_compute; discriminate.
  1-6: reflexivity.
  constructor.
Defined.

(** X21: whitespace around a name does not count: two bodies whose
    names are equal once trimmed get the same response and leave the same
    database. *)
Theorem create_user_trim_insensitive d1 d2 (fn1 ln1 fn2 ln2 : str) env db :
  d1 !! lit "first_name" = Some (JStr fn1) →
  d1 !! lit "last_name" = Some (JStr ln1) →
  d2 !! lit "first_name" = Some (JStr fn2) →
  d2 !! lit "last_name" = Some (JStr ln2) →
  Str.strip fn1 = Str.strip fn2 → Str.strip ln1 = Str.strip ln2 →
  create_user (Decoded (JDict d1)) env db = create_user (Decoded (JDict d2)) env db.
Proof.
  intros Hf1 Hl1 Hf2 Hl2 Hf Hl.
  rewrite (create_user_dict env db d1 _ _ Hf1 Hl1).
  rewrite (create_user_dict env db d2 _ _ Hf2 Hl2).
  unfold create_user_names, Py.strip. by rewrite Hf, Hl.
Qed.

Lemma create_user_trim_insensitive_witness :
  create_user (Decoded (JDict ada)) server_up no_users
  = create_user
      (Decoded (JDict {[ lit "first_name" := JStr (lit "Ada");
                         lit "last_name" := JStr (lit "Lovelace") ]}))
      server_up no_users.
Proof.
  apply (create_user_trim_insensitive _ _ (lit " Ada ") (lit " Lovelace ")
           (lit "Ada") (lit "Lovelace")).
  all: vm_compute; reflexivity.
Defined.

End create_user_again.
